(** * Wheel of Life tracker: a shallow embedding of its encrypted-data core

    The JavaScript sources modelled here are [js/crypto.js] (CryptoModule),
    [js/github.js] (GitHubModule), [js/visualization.js] (WheelChart) and
    [js/app.js] (App).
    JavaScript numbers are IEEE-754 binary64 values and are modelled by Rocq's
    primitive floats; byte arrays ([Uint8Array]) are lists of [byte]; binary
    strings (every code unit below 256, as [btoa] accepts and [atob] returns)
    are [string]s; exceptions are an explicit [Throw] outcome. *)

From Stdlib Require Import List String Ascii Bool Arith NArith ZArith Lia.
From Stdlib Require Import Floats Uint63.
From Stdlib.Strings Require Byte.
From Stdlib Require DecimalString.
Import ListNotations.

Set Implicit Arguments.
#[local] Set Warnings "-register-all".

(* ================================================================== *)
(** ** Exceptions *)

(** A thrown JavaScript error: the handlers of the program only ever look at
    [error.name] and [error.message]. *)
Record JsError : Type := mkError { err_name : string; err_message : string }.

Inductive Result (A : Type) : Type :=
| Ok (a : A)
| Throw (e : JsError).

Arguments Ok {A} a.
Arguments Throw {A} e.

Definition bind {A B : Type} (r : Result A) (k : A -> Result B) : Result B :=
  match r with
  | Ok a => k a
  | Throw e => Throw e
  end.

Notation "'let*' x ':=' r 'in' k" := (bind r (fun x => k))
  (at level 10, x name, r at level 100, k at level 200).

(** [new Error(msg)] *)
Definition Error (msg : string) : JsError := mkError "Error" msg.

Definition is_ok {A : Type} (r : Result A) : bool :=
  match r with Ok _ => true | Throw _ => false end.

(** [try { body } catch (error) { handler(error) }] *)
Definition try_catch {A : Type} (body : Result A) (handler : JsError -> Result A)
  : Result A :=
  match body with
  | Ok a => Ok a
  | Throw e => handler e
  end.

(* ================================================================== *)
(** ** Binary strings and byte arrays *)

Definition chars : string -> list ascii := list_ascii_of_string.
Definition text : list ascii -> string := string_of_list_ascii.

(** [String.fromCharCode(b)] for an element [b] of a [Uint8Array]. *)
Definition fromCharCode (b : Byte.byte) : ascii := ascii_of_byte b.

(** [s.charCodeAt(i)]: the code unit, a number below 256 in a binary string. *)
Definition charCodeAt (c : ascii) : N := N_of_ascii c.

(** Storing a number into a [Uint8Array] slot keeps it modulo 256. *)
Definition toUint8 (n : N) : Byte.byte := byte_of_ascii (ascii_of_N n).

(* ================================================================== *)
(** ** The platform's base64 codec: [btoa] and [atob]

    [btoa] is RFC 4648 base64 with padding; [atob] is the HTML standard's
    forgiving-base64 decode and throws an [InvalidCharacterError]
    [DOMException] on failure. *)
Module Base64.

(** The character of a sextet in [A-Za-z0-9+/]. *)
Definition b64_char (n : N) : ascii :=
  if (n <? 26)%N then ascii_of_N (n + 65)
  else if (n <? 52)%N then ascii_of_N (n + 71)
  else if (n <? 62)%N then ascii_of_N (n - 4)
  else if (n =? 62)%N then "+"%char
  else "/"%char.

(** The sextet of a character, [None] outside the alphabet. *)
Definition b64_index (c : ascii) : option N :=
  let n := N_of_ascii c in
  if ((65 <=? n) && (n <=? 90))%N then Some (n - 65)%N
  else if ((97 <=? n) && (n <=? 122))%N then Some (n - 71)%N
  else if ((48 <=? n) && (n <=? 57))%N then Some (n + 4)%N
  else if (n =? 43)%N then Some 62%N
  else if (n =? 47)%N then Some 63%N
  else None.

(** Sextets of a byte sequence: three bytes fill a 24-bit group; a final
    group of one or two bytes is zero-padded to 12 or 18 bits. *)
Fixpoint encode_sextets (l : list N) : list N :=
  match l with
  | a :: b :: c :: r =>
      let n := (a * 65536 + b * 256 + c)%N in
      (n / 262144 :: (n / 4096) mod 64 :: (n / 64) mod 64 :: n mod 64
         :: encode_sextets r)%N
  | [a; b] =>
      let n := ((a * 256 + b) * 4)%N in
      [n / 4096; (n / 64) mod 64; n mod 64]%N
  | [a] =>
      let n := (a * 16)%N in
      [n / 64; n mod 64]%N
  | [] => []
  end.

Definition padding (len : nat) : list ascii :=
  match len mod 3 with
  | 1 => ["="; "="]%char
  | 2 => ["="]%char
  | _ => []
  end.

(** [btoa(s)].  A code unit above 255 would make the real [btoa] throw; the
    type [string] has none. *)
Definition btoa (s : string) : string :=
  let codes := map charCodeAt (chars s) in
  text (map b64_char (encode_sextets codes) ++ padding (List.length codes)).

Definition is_ascii_whitespace (c : ascii) : bool :=
  let n := N_of_ascii c in
  ((n =? 9) || (n =? 10) || (n =? 12) || (n =? 13) || (n =? 32))%N.

Definition is_pad (c : ascii) : bool := Ascii.eqb c "="%char.

(** Step 2 of forgiving-base64 decode: when the length is a multiple of
    four, one or two trailing [=] are removed. *)
Definition strip_padding (l : list ascii) : list ascii :=
  if (List.length l mod 4 =? 0)%nat then
    match rev l with
    | c1 :: r1 =>
        if is_pad c1 then
          match r1 with
          | c2 :: r2 => if is_pad c2 then rev r2 else rev r1
          | [] => rev r1
          end
        else l
    | [] => l
    end
  else l.

Fixpoint indices (l : list ascii) : option (list N) :=
  match l with
  | [] => Some []
  | c :: r =>
      match b64_index c, indices r with
      | Some n, Some ns => Some (n :: ns)
      | _, _ => None
      end
  end.

(** Bytes of a sextet sequence: four sextets give three bytes; of a final
    12 bits the last four are discarded, of a final 18 bits the last two. *)
Fixpoint decode_sextets (l : list N) : list N :=
  match l with
  | s1 :: s2 :: s3 :: s4 :: r =>
      let n := (((s1 * 64 + s2) * 64 + s3) * 64 + s4)%N in
      (n / 65536 :: (n / 256) mod 256 :: n mod 256 :: decode_sextets r)%N
  | [s1; s2; s3] =>
      let n := (((s1 * 64 + s2) * 64 + s3) / 4)%N in
      [n / 256; n mod 256]%N
  | [s1; s2] =>
      let n := ((s1 * 64 + s2) / 16)%N in
      [n]
  | _ => []
  end.

Definition InvalidCharacterError : JsError :=
  mkError "InvalidCharacterError"
          "Failed to execute 'atob' on 'Window': The string to be decoded is not correctly encoded.".

(** [atob(s)] *)
Definition atob (s : string) : Result string :=
  let data := filter (fun c => negb (is_ascii_whitespace c)) (chars s) in
  let data := strip_padding data in
  if (List.length data mod 4 =? 1)%nat then Throw InvalidCharacterError
  else
    match indices data with
    | None => Throw InvalidCharacterError
    | Some ns => Ok (text (map ascii_of_N (decode_sextets ns)))
    end.

End Base64.

(* ================================================================== *)
(** ** CryptoModule *)
Module CryptoModule.

Definition PBKDF2_ITERATIONS : N := 100000.
Definition KEY_LENGTH : N := 256.

(** [arrayBufferToBase64(buffer)]: the loop appends
    [String.fromCharCode(bytes[i])] for every index, then calls [btoa]. *)
Definition arrayBufferToBase64 (buffer : list Byte.byte) : string :=
  let binary := fold_left (fun acc b => acc ++ String (fromCharCode b) "")%string
                          buffer ""%string in
  Base64.btoa binary.

(** [base64ToArrayBuffer(base64)]: [atob], then one array slot per code unit. *)
Definition base64ToArrayBuffer (base64 : string) : Result (list Byte.byte) :=
  let* binary := Base64.atob base64 in
  Ok (map (fun c => toUint8 (charCodeAt c)) (chars binary)).

(** The services of the browser that the module calls.  [Data] is the type of
    the values handed to [encrypt]; [Random] is the state of the random
    generator. *)
Record Platform (Data : Type) : Type := mkPlatform {
  CryptoKey : Type;
  KeyMaterial : Type;
  Random : Type;
  (** one byte of the cryptographic random generator *)
  random_byte : Random -> Byte.byte * Random;
  (** [Math.random() * 16 | 0] *)
  Math_random16 : Random -> N * Random;
  (** [new TextEncoder().encode(s)] and [new TextDecoder().decode(b)] *)
  TextEncoder_encode : string -> list Byte.byte;
  TextDecoder_decode : list Byte.byte -> string;
  (** [crypto.subtle.importKey('raw', buf, 'PBKDF2', false, ['deriveKey'])] *)
  subtle_importKey : list Byte.byte -> Result KeyMaterial;
  (** [crypto.subtle.deriveKey({PBKDF2, salt, iterations, SHA-256}, material,
      {AES-GCM, length}, false, ['encrypt', 'decrypt'])] *)
  subtle_deriveKey : list Byte.byte -> N -> KeyMaterial -> N -> Result CryptoKey;
  (** [crypto.subtle.encrypt({AES-GCM, iv}, key, data)] and its inverse *)
  subtle_encrypt : list Byte.byte -> CryptoKey -> list Byte.byte
                   -> Result (list Byte.byte);
  subtle_decrypt : list Byte.byte -> CryptoKey -> list Byte.byte
                   -> Result (list Byte.byte);
  JSON_stringify : Data -> Result string;
  JSON_parse : string -> Result Data
}.

Arguments CryptoKey {Data} _.
Arguments KeyMaterial {Data} _.
Arguments Random {Data} _.

(** [a.slice(start, end)] and [a.slice(start)] for indices that are not
    negative; both clamp to the length of the array. *)
Definition slice {A : Type} (start stop : nat) (a : list A) : list A :=
  firstn (stop - start) (skipn start a).

Definition slice_from {A : Type} (start : nat) (a : list A) : list A :=
  skipn start a.

Definition RangeError : JsError := mkError "RangeError" "offset is out of bounds".

(** [target.set(source, offset)] on a [Uint8Array]. *)
Definition Uint8Array_set (target source : list Byte.byte) (offset : nat)
  : Result (list Byte.byte) :=
  if (offset + List.length source <=? List.length target)%nat
  then Ok (firstn offset target ++ source
             ++ skipn (offset + List.length source) target)
  else Throw RangeError.

(** [new Uint8Array(n)] *)
Definition Uint8Array_new (n : nat) : list Byte.byte := repeat Byte.x00 n.

(** [s.includes(pat)] *)
Fixpoint includes (s pat : string) : bool :=
  String.prefix pat s ||
  match s with
  | EmptyString => false
  | String _ r => includes r pat
  end.

Definition DecryptionFailed : JsError :=
  Error "Decryption failed - incorrect password or corrupted data".

Section WithPlatform.

Variable Data : Type.
Variable P : Platform Data.

(** [crypto.getRandomValues(new Uint8Array(n))]: every slot of the new
    array is filled with a random byte. *)
Fixpoint getRandomValues (g : Random P) (n : nat) : list Byte.byte * Random P :=
  match n with
  | O => ([], g)
  | S k =>
      let (b, g1) := random_byte P g in
      let (rest, g2) := getRandomValues g1 k in
      (b :: rest, g2)
  end.

(** [deriveKey(password, salt)] *)
Definition deriveKey (password : string) (salt : list Byte.byte)
  : Result (CryptoKey P) :=
  let passwordBuffer := TextEncoder_encode P password in
  let* keyMaterial := subtle_importKey P passwordBuffer in
  subtle_deriveKey P salt PBKDF2_ITERATIONS keyMaterial KEY_LENGTH.

(** The [combined] array built by [encrypt]. *)
Definition combine (salt iv encryptedBuffer : list Byte.byte)
  : Result (list Byte.byte) :=
  let combined :=
    Uint8Array_new (List.length salt + List.length iv
                    + List.length encryptedBuffer) in
  let* combined := Uint8Array_set combined salt 0 in
  let* combined := Uint8Array_set combined iv (List.length salt) in
  Uint8Array_set combined encryptedBuffer (List.length salt + List.length iv).

(** The body of the [try] block of [encrypt], once salt and IV are drawn. *)
Definition encrypt_body (salt iv : list Byte.byte) (data : Data)
                        (password : string) : Result string :=
  let* key := deriveKey password salt in
  let* json := JSON_stringify P data in
  let dataBuffer := TextEncoder_encode P json in
  let* encryptedBuffer := subtle_encrypt P iv key dataBuffer in
  let* combined := combine salt iv encryptedBuffer in
  Ok (arrayBufferToBase64 combined).

(** [encrypt(data, password)], threading the random generator. *)
Definition encrypt (g : Random P) (data : Data) (password : string)
  : Result string * Random P :=
  let (salt, g1) := getRandomValues g 16 in
  let (iv, g2) := getRandomValues g1 12 in
  (try_catch (encrypt_body salt iv data password)
     (fun error =>
        Throw (Error ("Failed to encrypt data: " ++ err_message error))),
   g2).

(** The body of the [try] block of [decrypt]. *)
Definition decrypt_body (encryptedData password : string) : Result Data :=
  let* combined := base64ToArrayBuffer encryptedData in
  let salt := slice 0 16 combined in
  let iv := slice 16 28 combined in
  let encrypted := slice_from 28 combined in
  let* key := deriveKey password salt in
  let* decryptedBuffer := subtle_decrypt P iv key encrypted in
  let decryptedText := TextDecoder_decode P decryptedBuffer in
  JSON_parse P decryptedText.

(** [decrypt(encryptedData, password)] *)
Definition decrypt (encryptedData password : string) : Result Data :=
  try_catch (decrypt_body encryptedData password)
    (fun error =>
       if String.eqb (err_name error) "OperationError"
          || includes (err_message error) "decrypt"
       then Throw DecryptionFailed
       else Throw (Error ("Failed to decrypt data: " ++ err_message error))).

End WithPlatform.

(** [validatePassword(password)]: the [valid] flag and the message. *)
Definition validatePassword (password : option string) : bool * string :=
  match password with
  | None => (false, "Password must be at least 8 characters long"%string)
  | Some p =>
      if (String.length p <? 8)%nat
      then (false, "Password must be at least 8 characters long"%string)
      else (true, "Password is valid"%string)
  end.

End CryptoModule.

(* ================================================================== *)
(** ** JavaScript values received from the network *)

(** The values [response.json()] can produce, and [undefined] for a property
    that is not there. *)
Inductive JsValue : Type :=
| VUndefined
| VNull
| VBool (b : bool)
| VNumber (x : float)
| VString (s : string)
| VArray (items : list JsValue)
| VObject (fields : list (string * JsValue)).

Definition TypeError (msg : string) : JsError := mkError "TypeError" msg.

Fixpoint lookup (k : string) (fields : list (string * JsValue)) : JsValue :=
  match fields with
  | [] => VUndefined
  | (k', v) :: r => if String.eqb k k' then v else lookup k r
  end.

(** [v.k] for one of the property names the program reads ([message],
    [content], [sha]), none of which is a built-in property. *)
Definition get_property (v : JsValue) (k : string) : Result JsValue :=
  match v with
  | VUndefined =>
      Throw (TypeError ("Cannot read properties of undefined (reading '"
                          ++ k ++ "')"))
  | VNull =>
      Throw (TypeError ("Cannot read properties of null (reading '"
                          ++ k ++ "')"))
  | VObject fields => Ok (lookup k fields)
  | _ => Ok VUndefined
  end.

(** Truthiness, as [||] and [if] test it. *)
Definition ToBoolean (v : JsValue) : bool :=
  match v with
  | VUndefined | VNull => false
  | VBool b => b
  | VNumber x => negb (PrimFloat.eqb x 0) && PrimFloat.eqb x x
  | VString s => negb (String.eqb s "")
  | VArray _ | VObject _ => true
  end.

(* ================================================================== *)
(** ** GitHubModule *)
Module GitHubModule.

Definition owner : string := "hrunkaru".
Definition repo : string := "wheel-of-life".
Definition branch : string := "main".
Definition dataPath : string := "data/wheel-of-life.json.encrypted".

(** The object serialized as the body of the PUT request. *)
Record CommitBody : Type := mkCommitBody {
  body_message : string;
  body_content : string;
  body_branch : string;
  body_sha : option JsValue
}.

Record Request : Type := mkRequest {
  req_url : string;
  req_method : string;
  req_headers : list (string * string);
  req_body : option CommitBody
}.

Record Response : Type := mkResponse {
  status : Z;
  statusText : string;
  (** the outcome of [await response.json()] *)
  json : Result JsValue
}.

(** [response.ok] *)
Definition ok (r : Response) : bool :=
  ((200 <=? status r) && (status r <=? 299))%Z.

(** The network: [fetch] rejects or resolves with a response; [ToString] is
    the conversion a template literal applies to a value. *)
Record Http : Type := mkHttp {
  fetch : Request -> Result Response;
  ToString : JsValue -> string
}.

(** What [fetchEncryptedData] resolves with. *)
Record FetchedData : Type := mkFetched {
  content : option string;
  sha : JsValue
}.

Definition contents_url : string :=
  "https://api.github.com/repos/" ++ owner ++ "/" ++ repo ++ "/contents/"
    ++ dataPath.

Definition api_headers (pat : string) : list (string * string) :=
  [ ("Authorization", "Bearer " ++ pat);
    ("Accept", "application/vnd.github.v3+json");
    ("X-GitHub-Api-Version", "2022-11-28") ]%string.

(** [s.replace(/\n/g, '')] *)
Definition remove_newlines (s : string) : string :=
  text (filter (fun c => negb (Ascii.eqb c "010"%char)) (chars s)).

(** [v.replace(/\n/g, '')] for a value [v] read from the response. *)
Definition value_remove_newlines (v : JsValue) : Result string :=
  match v with
  | VString s => Ok (remove_newlines s)
  | VUndefined =>
      Throw (TypeError "Cannot read properties of undefined (reading 'replace')")
  | VNull =>
      Throw (TypeError "Cannot read properties of null (reading 'replace')")
  | _ => Throw (TypeError "data.content.replace is not a function")
  end.

(** The error thrown for a response that is not [ok]. *)
Definition api_error (H : Http) (response : Response) : Result JsError :=
  let* error := json response in
  let* m := get_property error "message" in
  let shown := if ToBoolean m then m else VString (statusText response) in
  Ok (Error ("GitHub API error: " ++ ToString H shown)).

Definition throw_api_error {A : Type} (H : Http) (response : Response)
  : Result A :=
  let* e := api_error H response in Throw e.

(** [fetchEncryptedData(pat)]; the [catch] block logs and rethrows. *)
Definition fetchEncryptedData (H : Http) (pat : string) : Result FetchedData :=
  try_catch
    (let* response :=
       fetch H (mkRequest contents_url "GET" (api_headers pat) None) in
     if (status response =? 404)%Z then
       Ok (mkFetched None VNull)
     else if negb (ok response) then
       throw_api_error H response
     else
       let* data := json response in
       let* c := get_property data "content" in
       let* stripped := value_remove_newlines c in
       let* content := Base64.atob stripped in
       let* sha := get_property data "sha" in
       Ok (mkFetched (Some content) sha))
    (fun error => Throw error).

(** [commitEncryptedData(pat, encryptedData, sha, message)] *)
Definition commitEncryptedData (H : Http) (pat encryptedData : string)
                               (sha : JsValue) (message : string)
  : Result JsValue :=
  try_catch
    (let contentBase64 := Base64.btoa encryptedData in
     let body :=
       mkCommitBody message contentBase64 branch
                    (if ToBoolean sha then Some sha else None) in
     let* response :=
       fetch H (mkRequest contents_url "PUT"
                  (api_headers pat
                     ++ [("Content-Type"%string, "application/json"%string)])%list
                  (Some body)) in
     if negb (ok response) then
       throw_api_error H response
     else
       json response)
    (fun error => Throw error).

(** [testPAT(pat)] *)
Definition testPAT (H : Http) (pat : string) : bool :=
  match fetch H (mkRequest ("https://api.github.com/repos/" ++ owner ++ "/" ++ repo)
                   "GET" (api_headers pat) None) with
  | Ok response => ok response
  | Throw _ => false
  end.

End GitHubModule.

(* ================================================================== *)
(** ** Numbers: the [Math] functions and [parseInt] the program calls *)
Module JsNumber.

Definition two52 : float := 4503599627370496%float.

Definition is_finite (x : float) : bool := PrimFloat.ltb (abs x) infinity.

(** The Number value of a mathematical integer: the nearest binary64, a tie
    going to the even one.  Below 2^63 in magnitude this is the conversion
    of a machine integer, beyond it the normalization of the library. *)
Definition Z2num (z : Z) : float :=
  if (Z.abs z <? 9223372036854775808)%Z then
    let m := PrimFloat.of_uint63 (Uint63.of_Z (Z.abs z)) in
    if (z <? 0)%Z then (- m)%float else m
  else SF2Prim (binary_normalize prec emax z 0 false).

(** [Math.floor(x)].  Below 2^52 in magnitude, adding and subtracting 2^52
    rounds [|x|] to an integer, which is then adjusted downwards; larger
    numbers, infinities and NaN are returned as they are. *)
Definition Math_floor (x : float) : float :=
  if PrimFloat.eqb x 0 then x
  else if PrimFloat.ltb (abs x) two52 then
    let r := (abs x + two52 - two52)%float in
    if PrimFloat.ltb x 0 then
      (- (if PrimFloat.ltb r (abs x) then r + 1 else r))%float
    else
      (if PrimFloat.ltb (abs x) r then r - 1 else r)%float
  else x.

(** [Math.round(x)]: the nearest integer, a tie going towards +infinity. *)
Definition Math_round (x : float) : float :=
  if negb (is_finite x) then x
  else
    let f := Math_floor x in
    if PrimFloat.eqb f x then x
    else if PrimFloat.ltb x 0 && PrimFloat.leb (-0.5)%float x then neg_zero
    else if PrimFloat.leb 0.5%float (x - f)%float then (f + 1)%float
    else f.

(** [Math.max(a, b)] *)
Definition Math_max (a b : float) : float :=
  if negb (PrimFloat.eqb a a) || negb (PrimFloat.eqb b b) then nan
  else if PrimFloat.ltb a b then b
  else if PrimFloat.ltb b a then a
  else if PrimFloat.eqb (1 / a)%float neg_infinity then b
  else a.

(** [Math.pow(x, 2)], the correctly rounded square. *)
Definition Math_pow2 (x : float) : float := (x * x)%float.

Definition Math_sqrt (x : float) : float := PrimFloat.sqrt x.

(** White space and line terminators, as [parseInt] and [trim] skip them,
    among the code units below 256. *)
Definition is_js_whitespace (c : ascii) : bool :=
  let n := N_of_ascii c in
  (((9 <=? n) && (n <=? 13)) || (n =? 32) || (n =? 160))%N.

Fixpoint trim_start (l : list ascii) : list ascii :=
  match l with
  | c :: r => if is_js_whitespace c then trim_start r else l
  | [] => []
  end.

(** [s.trim()] *)
Definition trim (s : string) : string :=
  text (rev (trim_start (rev (trim_start (chars s))))).

Definition digit_value (radix : N) (c : ascii) : option N :=
  let n := N_of_ascii c in
  let v :=
    if ((48 <=? n) && (n <=? 57))%N then Some (n - 48)%N
    else if ((97 <=? n) && (n <=? 122))%N then Some (n - 87)%N
    else if ((65 <=? n) && (n <=? 90))%N then Some (n - 55)%N
    else None in
  match v with
  | Some d => if (d <? radix)%N then Some d else None
  | None => None
  end.

(** The value of the longest prefix of digits, [None] when it is empty. *)
Fixpoint parse_digits (radix : N) (l : list ascii) (acc : option N) : option N :=
  match l with
  | c :: r =>
      match digit_value radix c with
      | Some d =>
          parse_digits radix r
            (Some (match acc with Some a => a * radix + d | None => d end)%N)
      | None => acc
      end
  | [] => acc
  end.

(** [parseInt(s)] without a radix argument. *)
Definition parseInt (s : string) : float :=
  let input := trim_start (chars s) in
  let '(negative, input) :=
    match input with
    | c :: r =>
        if Ascii.eqb c "-" then (true, r)
        else if Ascii.eqb c "+" then (false, r)
        else (false, input)
    | [] => (false, input)
    end in
  let '(radix, input) :=
    match input with
    | c0 :: x :: r =>
        if Ascii.eqb c0 "0" && (Ascii.eqb x "x" || Ascii.eqb x "X")
        then (16%N, r) else (10%N, input)
    | _ => (10%N, input)
    end in
  match parse_digits radix input None with
  | None => nan
  | Some 0%N => if negative then neg_zero else zero
  | Some m => Z2num (if negative then - Z.of_N m else Z.of_N m)
  end.

(** [v.toString(16)] for [0 <= v < 16] *)
Definition hex_digit (v : N) : ascii :=
  if (v <? 10)%N then ascii_of_N (v + 48) else ascii_of_N (v + 87).

End JsNumber.
Import JsNumber.

(* ================================================================== *)
(** ** Dates *)

(** The clock and calendar of the browser.  A time value is a number of
    milliseconds, [None] standing for the NaN of an invalid date. *)
Record DateEnv : Type := mkDateEnv {
  (** the time value of [new Date()] *)
  now : Z;
  (** the time value of [new Date(s)] *)
  Date_parse : string -> option Z;
  (** the time value of [d] after [d.setDate(d.getDate() + k)] *)
  Date_addDays : Z -> Z -> option Z;
  (** [d.toISOString()] *)
  toISOString : Z -> string
}.

(** [a >= b] and [a <= b] on dates compare the time values; a comparison
    with NaN is false. *)
Definition date_ge (a b : option Z) : bool :=
  match a, b with
  | Some x, Some y => (y <=? x)%Z
  | _, _ => false
  end.

Definition date_le (a b : option Z) : bool := date_ge b a.

(* ================================================================== *)
(** ** The document *)

Inductive Key : Type :=
| Body | Mind | Soul | Friends | Romance | Family | Mission | Money | Growth.

Record Ratings : Type := mkRatings {
  body : float; mind : float; soul : float;
  friends : float; romance : float; family : float;
  mission : float; money : float; growth : float
}.

(** [ratings[key]] *)
Definition rating (r : Ratings) (k : Key) : float :=
  match k with
  | Body => body r | Mind => mind r | Soul => soul r
  | Friends => friends r | Romance => romance r | Family => family r
  | Mission => mission r | Money => money r | Growth => growth r
  end.

Record Entry : Type := mkEntry {
  id : string;
  timestamp : string;
  ratings : Ratings;
  notes : string
}.

Record Document : Type := mkDocument {
  entries : list Entry;
  version : string
}.

(** [Object.values(ratings)], in the order the keys are created. *)
Definition Object_values (r : Ratings) : list float :=
  [body r; mind r; soul r; friends r; romance r; family r;
   mission r; money r; growth r].

(** [a.reduce((x, y) => x + y, 0)] *)
Definition sum (a : list float) : float :=
  fold_left (fun x y => (x + y)%float) a 0%float.

(** [a.length] as a Number *)
Definition length_num {A : Type} (a : list A) : float :=
  Z2num (Z.of_nat (List.length a)).

(* ================================================================== *)
(** ** WheelChart: the derived views of the entry log *)
Module WheelChart.

Inductive Category : Type := health | relationships | work.

(** [categories[category]], each label already lower-cased to its key. *)
Definition categories (c : Category) : list Key :=
  match c with
  | health => [Body; Mind; Soul]
  | relationships => [Friends; Romance; Family]
  | work => [Mission; Money; Growth]
  end.

Definition labels : list Key :=
  [Body; Mind; Soul; Friends; Romance; Family; Mission; Money; Growth].

(** [getCategoryAverage(ratings, category)] *)
Definition getCategoryAverage (r : Ratings) (category : Category) : float :=
  let subcategories := categories category in
  let values := map (rating r) subcategories in
  (sum values / length_num values)%float.

(** [getBalanceScore(ratings)] *)
Definition getBalanceScore (r : Ratings) : float :=
  let allValues := Object_values r in
  let avg := (sum allValues / length_num allValues)%float in
  let variance :=
    (fold_left (fun sum val => sum + Math_pow2 (val - avg)) allValues 0
     / length_num allValues)%float in
  let stdDev := Math_sqrt variance in
  let balanceScore := Math_max 0 (10 - stdDev)%float in
  (Math_round (balanceScore * 10) / 10)%float.

(** The entries [calculateAverages] keeps: all of them for [days = null],
    otherwise those dated at or after the cut-off, which is the current date
    moved back by [days] days of the calendar. *)
Definition filteredEntries (env : DateEnv) (entries : list Entry)
                           (days : option Z) : list Entry :=
  match days with
  | None => entries
  | Some d =>
      let cutoffDate := Date_addDays env (now env) (- d) in
      filter (fun e => date_ge (Date_parse env (timestamp e)) cutoffDate)
             entries
  end.

(** The value stored under one key by the [forEach] loop. *)
Definition average_of (filtered : list Entry) (key : Key) : float :=
  let sum :=
    fold_left (fun total entry => (total + rating (ratings entry) key)%float)
              filtered 0%float in
  (Math_round (sum / length_num filtered * 10) / 10)%float.

(** [calculateAverages(entries, days)]; [None] is the [null] result. *)
Definition calculateAverages (env : DateEnv) (entries : list Entry)
                             (days : option Z) : option Ratings :=
  if (List.length entries =? 0)%nat then None
  else
    let filtered := filteredEntries env entries days in
    if (List.length filtered =? 0)%nat then None
    else
      let avg := average_of filtered in
      Some (mkRatings (avg Body) (avg Mind) (avg Soul)
                      (avg Friends) (avg Romance) (avg Family)
                      (avg Mission) (avg Money) (avg Growth)).

(** [filterByDateRange(entries, startDate, endDate)].  A bound is [None]
    when it is [null]; a [Date] object is truthy even when it is invalid. *)
Definition filterByDateRange (env : DateEnv) (entries : list Entry)
                             (startDate endDate : option (option Z))
  : list Entry :=
  match startDate, endDate with
  | None, None => entries
  | _, _ =>
      filter
        (fun entry =>
           let entryDate := Date_parse env (timestamp entry) in
           let afterStart :=
             match startDate with
             | None => true
             | Some s => date_ge entryDate s
             end in
           let beforeEnd :=
             match endDate with
             | None => true
             | Some e => date_le entryDate e
             end in
           afterStart && beforeEnd)
        entries
  end.

End WheelChart.

(* ================================================================== *)
(** ** App: the session state and the entry-submission handler *)
Module App.

Import CryptoModule GitHubModule.

Record State : Type := mkState {
  authenticated : bool;
  pat : option string;
  password : option string;
  data : option Document;
  currentSHA : JsValue;
  currentView : string
}.

(** The values of the form controls the handler reads. *)
Record EntryForm : Type := mkForm {
  rating_body : string; rating_mind : string; rating_soul : string;
  rating_friends : string; rating_romance : string; rating_family : string;
  rating_mission : string; rating_money : string; rating_growth : string;
  entry_notes : string
}.

(** What the handlers do to the page, in order. *)
Inductive UIEvent : Type :=
| PreventDefault
| ShowLoading (message : string)
| HideLoading
| ShowError (message : string)
| ShowSuccess (message : string)
| FormReset
| RenderDashboard.

(** The result of running a handler: how its promise settles, the state it
    leaves, the random generator and what it did to the page. *)
Record Outcome (R : Type) : Type := mkOutcome {
  result : Result unit;
  state : State;
  random : R;
  ui : list UIEvent
}.

(** A [null] converted to a string, as [encode] and template literals do. *)
Definition string_or_null (s : option string) : string :=
  match s with
  | Some v => v
  | None => "null"
  end.

(** [createEmptyData()] *)
Definition createEmptyData : Document := mkDocument [] "1.0".

Section WithPlatform.

Variable P : Platform (option Document).
Variable H : Http.
Variable env : DateEnv.

(** One replaced character of the UUID template. *)
Definition uuid_char (c : ascii) (g : Random P) : ascii * Random P :=
  if Ascii.eqb c "x" || Ascii.eqb c "y" then
    let (r, g') := Math_random16 P g in
    let v := if Ascii.eqb c "x" then r else N.lor (N.land r 3) 8 in
    (hex_digit v, g')
  else (c, g).

(** [generateUUID()] *)
Definition generateUUID (g : Random P) : string * Random P :=
  let (l, g') :=
    fold_left (fun (acc : list ascii * Random P) c =>
                 let (done, g0) := acc in
                 let (c', g1) := uuid_char c g0 in
                 (done ++ [c'], g1))
              (chars "xxxxxxxx-xxxx-4xxx-yxxx-xxxxxxxxxxxx") ([], g) in
  (text l, g').

(** [saveData(commitMessage)] *)
Definition saveData (st : State) (g : Random P) (commitMessage : string)
  : Outcome (Random P) :=
  let (encrypted, g') := encrypt P g (data st) (string_or_null (password st)) in
  let attempt :=
    let* encrypted := encrypted in
    let* response :=
      commitEncryptedData H (string_or_null (pat st)) encrypted
                          (currentSHA st) commitMessage in
    let* content := get_property response "content" in
    get_property content "sha" in
  match attempt with
  | Ok newSHA =>
      mkOutcome (Ok tt)
        (mkState (authenticated st) (pat st) (password st) (data st)
                 newSHA (currentView st))
        g'
        [ShowLoading "Saving to GitHub..."; HideLoading;
         ShowSuccess "Data saved successfully!"]
  | Throw error =>
      mkOutcome (Throw error) st g'
        [ShowLoading "Saving to GitHub..."; HideLoading;
         ShowError ("Failed to save data: " ++ err_message error)]
  end.

(** The ratings object the handler collects from the sliders. *)
Definition collect_ratings (form : EntryForm) : Ratings :=
  mkRatings (parseInt (rating_body form)) (parseInt (rating_mind form))
            (parseInt (rating_soul form)) (parseInt (rating_friends form))
            (parseInt (rating_romance form)) (parseInt (rating_family form))
            (parseInt (rating_mission form)) (parseInt (rating_money form))
            (parseInt (rating_growth form)).

(** The entry object the handler creates. *)
Definition new_entry (form : EntryForm) (g : Random P) : Entry * Random P :=
  let ratings := collect_ratings form in
  let notes := trim (entry_notes form) in
  let (id, g') := generateUUID g in
  (mkEntry id (toISOString env (now env)) ratings notes, g').

(** [this.state.data.entries.push(entry)] *)
Definition push_entry (st : State) (entry : Entry) : Result State :=
  match data st with
  | None =>
      Throw (TypeError "Cannot read properties of null (reading 'entries')")
  | Some doc =>
      Ok (mkState (authenticated st) (pat st) (password st)
                  (Some (mkDocument (entries doc ++ [entry]) (version doc)))
                  (currentSHA st) (currentView st))
  end.

(** [handleEntrySubmit(e)] *)
Definition handleEntrySubmit (form : EntryForm) (st : State) (g : Random P)
  : Outcome (Random P) :=
  let (entry, g1) := new_entry form g in
  match push_entry st entry with
  | Throw error => mkOutcome (Throw error) st g1 [PreventDefault]
  | Ok st1 =>
      let saved := saveData st1 g1 "Add new wheel-of-life entry" in
      match result saved with
      | Throw error =>
          mkOutcome (Throw error) (state saved) (random saved)
                    (PreventDefault :: ui saved)
      | Ok _ =>
          mkOutcome (Ok tt) (state saved) (random saved)
                    (PreventDefault :: ui saved ++ [FormReset; RenderDashboard])
      end
  end.

End WithPlatform.

End App.

(* ================================================================== *)
(** ** localStorage *)
Module LocalStorage.

(** The stored items, the most recently written first. *)
Definition Storage : Type := list (string * string).

(** [localStorage.getItem(key)]; [None] is [null]. *)
Fixpoint getItem (key : string) (s : Storage) : option string :=
  match s with
  | [] => None
  | (k, v) :: r => if String.eqb key k then Some v else getItem key r
  end.

(** [localStorage.removeItem(key)] *)
Definition removeItem (key : string) (s : Storage) : Storage :=
  filter (fun item => negb (String.eqb key (fst item))) s.

(** When the browser refuses a write (the quota is exceeded), and with which
    exception. *)
Record Limits : Type := mkLimits {
  refuses : string -> string -> Storage -> option JsError
}.

(** [localStorage.setItem(key, value)] *)
Definition setItem (q : Limits) (key value : string) (s : Storage)
  : Result Storage :=
  match refuses q key value s with
  | Some e => Throw e
  | None => Ok ((key, value) :: removeItem key s)
  end.

End LocalStorage.

(* ================================================================== *)
(** ** GitHubModule: the stored token and the addresses *)
Module PatStore.

Import GitHubModule LocalStorage.

Definition PAT_STORAGE_KEY : string := "github_pat".

(** [getStoredPAT()] *)
Definition getStoredPAT (s : Storage) : option string :=
  getItem PAT_STORAGE_KEY s.

(** [storePAT(pat)] *)
Definition storePAT (q : Limits) (pat : string) (s : Storage) : Result Storage :=
  setItem q PAT_STORAGE_KEY pat s.

(** [clearPAT()] *)
Definition clearPAT (s : Storage) : Storage := removeItem PAT_STORAGE_KEY s.

(** [getRepoURL()] *)
Definition getRepoURL : string :=
  ("https://github.com/" ++ owner ++ "/" ++ repo)%string.

(** [getDataFileURL()] *)
Definition getDataFileURL : string :=
  (getRepoURL ++ "/blob/" ++ branch ++ "/" ++ dataPath)%string.

End PatStore.

(* ================================================================== *)
(** ** WheelChart: the averages of the three categories *)
Module CategoryView.

Import WheelChart.

Record CategoryAverages : Type := mkCategoryAverages {
  avg_health : float;
  avg_relationships : float;
  avg_work : float;
  avg_overall : float
}.

(** [calculateCategoryAverages(entries, days)] *)
Definition calculateCategoryAverages (env : DateEnv) (entries : list Entry)
                                     (days : option Z)
  : option CategoryAverages :=
  match calculateAverages env entries days with
  | None => None
  | Some averages =>
      Some (mkCategoryAverages
              (getCategoryAverage averages health)
              (getCategoryAverage averages relationships)
              (getCategoryAverage averages work)
              (sum (Object_values averages) / 9)%float)
  end.

End CategoryView.

(* ================================================================== *)
(** ** App: the dashboard and the history *)
Module Views.

Import GitHubModule WheelChart CategoryView App.

(** [key] as [Object.keys] gives it. *)
Definition key_name (k : Key) : string :=
  match k with
  | Body => "body" | Mind => "mind" | Soul => "soul"
  | Friends => "friends" | Romance => "romance" | Family => "family"
  | Mission => "mission" | Money => "money" | Growth => "growth"
  end.

Record Changes : Type := mkChanges {
  improved : list string;
  declined : list string;
  hasChanges : bool
}.

(** One round of the [forEach] loop of [calculateChanges]. *)
Definition note_change (Number_toString : float -> string)
                       (current previous : Ratings) (acc : Changes) (key : Key)
  : Changes :=
  let diff := (rating current key - rating previous key)%float in
  if PrimFloat.ltb 0 diff then
    mkChanges
      (improved acc
         ++ [(key_name key ++ " (+" ++ Number_toString diff ++ ")")%string])
      (declined acc) true
  else if PrimFloat.ltb diff 0 then
    mkChanges
      (improved acc)
      (declined acc
         ++ [(key_name key ++ " (" ++ Number_toString diff ++ ")")%string])
      true
  else acc.

(** [calculateChanges(current, previous)]; [Number_toString] is the
    conversion a template literal applies to a number. *)
Definition calculateChanges (Number_toString : float -> string)
                            (current previous : Ratings) : Changes :=
  fold_left (note_change Number_toString current previous) labels
            (mkChanges [] [] false).

(** What [renderAnalytics] puts into the three average displays. *)
Record Analytics : Type := mkAnalytics {
  weekAvg : option CategoryAverages;
  monthAvg : option CategoryAverages;
  allTimeAvg : option CategoryAverages
}.

(** [renderAnalytics()], the averages it displays. *)
Definition renderAnalytics (env : DateEnv) (doc : Document) : Analytics :=
  mkAnalytics (calculateCategoryAverages env (entries doc) (Some 7%Z))
              (calculateCategoryAverages env (entries doc) (Some 30%Z))
              (calculateCategoryAverages env (entries doc) None).

Inductive AnalyticsSection : Type :=
| Untouched
| Hidden
| Shown (a : Analytics).

(** What [renderDashboard] puts on the page: the ratings given to the radar
    chart ([None] when it is not redrawn), the number of entries, the
    timestamp whose date is shown ([None] for "Never") and the analytics
    section. *)
Record Dashboard : Type := mkDashboard {
  chart : option Ratings;
  total_entries : nat;
  last_updated : option string;
  analytics : AnalyticsSection
}.

(** [renderDashboard()] *)
Definition renderDashboard (env : DateEnv) (st : State) : Result Dashboard :=
  match data st with
  | None =>
      Throw (TypeError "Cannot read properties of null (reading 'entries')")
  | Some doc =>
      match rev (entries doc) with
      | latestEntry :: _ =>
          Ok (mkDashboard
                (Some (ratings latestEntry))
                (List.length (entries doc))
                (Some (timestamp latestEntry))
                (if (1 <? List.length (entries doc))%nat
                 then Shown (renderAnalytics env doc) else Hidden))
      | [] => Ok (mkDashboard None 0 None Untouched)
      end
  end.

(** The local days the date inputs of the history stand for: the time
    values of [new Date(value)] after [setHours(0, 0, 0, 0)] and after
    [setHours(23, 59, 59, 999)]. *)
Record DayBounds : Type := mkDayBounds {
  day_start : string -> option Z;
  day_end : string -> option Z
}.

(** One element of the history list: the entry, and the changes from the
    entry that follows it in the list when there are any. *)
Record HistoryRow : Type := mkRow {
  row_entry : Entry;
  row_changes : option Changes
}.

(** The [forEach] loop of [renderHistory] over the sorted entries. *)
Fixpoint history_rows (Number_toString : float -> string) (sorted : list Entry)
  : list HistoryRow :=
  match sorted with
  | [] => []
  | entry :: rest =>
      let changeInfo :=
        match rest with
        | prevEntry :: _ =>
            let changes :=
              calculateChanges Number_toString (ratings entry)
                               (ratings prevEntry) in
            if hasChanges changes then Some changes else None
        | [] => None
        end in
      mkRow entry changeInfo :: history_rows Number_toString rest
  end.

(** What [renderHistory] puts on the page. *)
Inductive HistoryView : Type :=
| NoEntries (message : string)
| Listing (rows : list HistoryRow) (count : string).

(** The bound a date input gives: none when the input is missing or empty. *)
Definition date_bound (parse : string -> option Z) (input : option string)
  : option (option Z) :=
  match input with
  | Some value => if String.eqb value "" then None else Some (parse value)
  | None => None
  end.

(** [n] in a template literal. *)
Definition count_string (n : nat) : string :=
  DecimalString.NilZero.string_of_uint (Nat.to_uint n).

(** [renderHistory()] *)
Definition renderHistory (env : DateEnv) (days : DayBounds)
                         (Number_toString : float -> string)
                         (startDateInput endDateInput : option string)
                         (st : State) : Result HistoryView :=
  let startDate := date_bound (day_start days) startDateInput in
  let endDate := date_bound (day_end days) endDateInput in
  match data st with
  | None =>
      Throw (TypeError "Cannot read properties of null (reading 'entries')")
  | Some doc =>
      let filteredEntries :=
        filterByDateRange env (entries doc) startDate endDate in
      let sortedEntries := rev filteredEntries in
      if (List.length sortedEntries =? 0)%nat then
        Ok (NoEntries "No entries found for the selected date range.")
      else
        Ok (Listing
              (history_rows Number_toString sortedEntries)
              ("Showing " ++ count_string (List.length sortedEntries) ++ " "
                 ++ (if (List.length sortedEntries =? 1)%nat
                     then "entry" else "entries"))%string)
  end.

End Views.

(* ================================================================== *)
(** ** App: entering and leaving a session *)
Module Session.

Import CryptoModule GitHubModule LocalStorage PatStore App Views.

Definition REMEMBER_PASSWORD_KEY : string := "remember_password".

(** What the handlers of the session do to the page, in order. *)
Inductive PageEvent : Type :=
| Ui (e : UIEvent)
| ShowPATSetup
| ShowPasswordPrompt
| ShowPasswordPromptAfter (milliseconds : Z)
| ShowMainApp
| Rendered (view : Dashboard)
| SetupEventListeners.

(** The result of running a handler: how its promise settles, the state and
    the storage it leaves and what it did to the page. *)
Record Run : Type := mkRun {
  settled : Result unit;
  after : State;
  stored : Storage;
  page : list PageEvent
}.

Definition set_pat (st : State) (p : option string) : State :=
  mkState (authenticated st) p (password st) (data st) (currentSHA st)
          (currentView st).

Definition set_password (st : State) (p : option string) : State :=
  mkState (authenticated st) (pat st) p (data st) (currentSHA st)
          (currentView st).

(** The three assignments that open a session. *)
Definition open_session (st : State) (d : option Document) (sha : JsValue)
  : State :=
  mkState true (pat st) (password st) d sha (currentView st).

(** [init()] *)
Definition init (st : State) (s : Storage) : Run :=
  match getStoredPAT s with
  | Some storedPAT =>
      if String.eqb storedPAT "" then
        mkRun (Ok tt) st s [ShowPATSetup; SetupEventListeners]
      else
        mkRun (Ok tt) (set_pat st (Some storedPAT)) s
              [ShowPasswordPrompt; SetupEventListeners]
  | None => mkRun (Ok tt) st s [ShowPATSetup; SetupEventListeners]
  end.

(** [handlePATSubmit(e)] *)
Definition handlePATSubmit (H : Http) (q : Limits) (patInput : string)
                           (st : State) (s : Storage) : Run :=
  let pat := trim patInput in
  if String.eqb pat "" then
    mkRun (Ok tt) st s
          [Ui PreventDefault; Ui (ShowError "Please enter a valid GitHub PAT")]
  else if negb (testPAT H pat) then
    mkRun (Ok tt) st s
          [Ui PreventDefault; Ui (ShowLoading "Validating PAT...");
           Ui HideLoading;
           Ui (ShowError "Invalid PAT or insufficient permissions. Please check your token.")]
  else
    match storePAT q pat s with
    | Ok s' =>
        mkRun (Ok tt) (set_pat st (Some pat)) s'
              [Ui PreventDefault; Ui (ShowLoading "Validating PAT...");
               Ui HideLoading;
               Ui (ShowSuccess "PAT validated and stored successfully!");
               ShowPasswordPromptAfter 1000]
    | Throw error =>
        mkRun (Ok tt) st s
              [Ui PreventDefault; Ui (ShowLoading "Validating PAT...");
               Ui HideLoading;
               Ui (ShowError ("Error validating PAT: " ++ err_message error))]
    end.

(** [showMainApp()]: the main view is shown, then the dashboard rendered. *)
Definition showMainApp (env : DateEnv) (st : State)
  : Result unit * list PageEvent :=
  match renderDashboard env st with
  | Ok view => (Ok tt, [ShowMainApp; Rendered view])
  | Throw e => (Throw e, [ShowMainApp])
  end.

(** The steps of [handlePasswordSubmit] after the data are assigned:
    [currentSHA], [authenticated], the success message and [showMainApp()]. *)
Definition enter (env : DateEnv) (st : State) (d : option Document)
                 (sha : JsValue) (welcome : string)
  : Result unit * State * list PageEvent :=
  let st' := open_session st d sha in
  let (shown, events) := showMainApp env st' in
  (shown, st', [Ui HideLoading; Ui (ShowSuccess welcome)] ++ events).

Section WithPlatform.

Variable P : Platform (option Document).
Variable H : Http.
Variable env : DateEnv.
Variable q : Limits.

(** [handlePasswordSubmit(e)]; [remember] is the state of the check box,
    [None] when the page has none. *)
Definition handlePasswordSubmit (passwordInput : string)
                                (remember : option bool)
                                (st : State) (s : Storage) : Run :=
  let password := passwordInput in
  let validation := validatePassword (Some password) in
  if negb (fst validation) then
    mkRun (Ok tt) st s [Ui PreventDefault; Ui (ShowError (snd validation))]
  else
    let st1 := set_password st (Some password) in
    let written :=
      match remember with
      | Some true => setItem q REMEMBER_PASSWORD_KEY "true" s
      | _ => Ok s
      end in
    match written with
    | Throw error => mkRun (Throw error) st1 s [Ui PreventDefault]
    | Ok s1 =>
        let begun :=
          [Ui PreventDefault; Ui (ShowLoading "Loading your data...")] in
        match fetchEncryptedData H (string_or_null (pat st1)) with
        | Throw error =>
            mkRun (Ok tt) st1 s1
                  (begun ++ [Ui HideLoading;
                             Ui (ShowError ("Error loading data: "
                                              ++ err_message error))])
        | Ok fetched =>
            match content fetched with
            | None =>
                let '(shown, st2, events) :=
                  enter env st1 (Some createEmptyData) VNull
                        "Welcome! Let's create your first entry." in
                match shown with
                | Ok _ => mkRun (Ok tt) st2 s1 (begun ++ events)
                | Throw error =>
                    mkRun (Ok tt) st2 s1
                          (begun ++ events
                             ++ [Ui HideLoading;
                                 Ui (ShowError ("Error loading data: "
                                                  ++ err_message error))])
                end
            | Some content =>
                let failed st' events :=
                  mkRun (Ok tt) (set_password st' None) s1
                        (begun ++ events
                           ++ [Ui HideLoading;
                               Ui (ShowError "Failed to decrypt data. Please check your password.")]) in
                match decrypt P content password with
                | Throw decryptError => failed st1 []
                | Ok d =>
                    let '(shown, st2, events) :=
                      enter env st1 d (sha fetched)
                            "Data loaded successfully!" in
                    match shown with
                    | Ok _ => mkRun (Ok tt) st2 s1 (begun ++ events)
                    | Throw decryptError => failed st2 events
                    end
                end
            end
        end
    end.

End WithPlatform.

(** [logout()]; [confirmed] is the answer to the confirmation dialog. *)
Definition logout (confirmed : bool) (st : State) (s : Storage) : Run :=
  if confirmed then
    mkRun (Ok tt)
          (mkState false (pat st) None (data st) (currentSHA st)
                   (currentView st))
          s [ShowPasswordPrompt]
  else mkRun (Ok tt) st s [].

End Session.

(* ================================================================== *)
(** ** A small instance of the platform

    The statements below assume of the browser only what its standards
    promise.  This instance, with a tag-appending stand-in for AES-GCM, shows
    that those assumptions can be met together. *)
Module Sample.

Import CryptoModule GitHubModule.

Definition OperationError : JsError :=
  mkError "OperationError" "The operation failed for an operation-specific reason".

Definition bytes_of (s : string) : list Byte.byte :=
  map byte_of_ascii (chars s).

Definition string_of (b : list Byte.byte) : string :=
  text (map ascii_of_byte b).

Definition tag (key iv : list Byte.byte) : list Byte.byte :=
  firstn 16 (key ++ iv ++ repeat Byte.x00 16).

Fixpoint bytes_eqb (a b : list Byte.byte) : bool :=
  match a, b with
  | [], [] => true
  | x :: a', y :: b' => Byte.eqb x y && bytes_eqb a' b'
  | _, _ => false
  end.

Definition seal (iv key plaintext : list Byte.byte) : Result (list Byte.byte) :=
  if (List.length iv =? 0)%nat then Throw OperationError
  else Ok (plaintext ++ tag key iv).

Definition unseal (iv key sealed : list Byte.byte) : Result (list Byte.byte) :=
  if ((List.length iv =? 0) || (List.length sealed <? 16))%nat
  then Throw OperationError
  else
    let n := (List.length sealed - 16)%nat in
    if bytes_eqb (skipn n sealed) (tag key iv) then Ok (firstn n sealed)
    else Throw OperationError.

Definition platform (Data : Type) (stringify : Data -> Result string)
                    (parse : string -> Result Data) : Platform Data :=
  @mkPlatform Data (list Byte.byte) (list Byte.byte) nat
    (fun g => (toUint8 (N.of_nat g), S g))
    (fun g => ((N.of_nat g mod 16)%N, S g))
    bytes_of string_of
    (fun buf => Ok buf)
    (fun salt _ material _ => Ok (material ++ salt))
    seal unseal stringify parse.

(** Text documents, serialized as they are. *)
Definition text_platform : Platform string :=
  platform (fun s => Ok s) (fun s => Ok s).

Definition SyntaxError : JsError :=
  mkError "SyntaxError" "Unexpected end of JSON input".

(** A platform for the application whose serializer writes only the schema
    version and whose parser rejects everything. *)
Definition app_platform : Platform (option Document) :=
  platform (fun d => Ok (match d with
                         | Some doc => version doc
                         | None => "null"%string
                         end))
           (fun _ => Throw SyntaxError).

(** A network that cannot be reached. *)
Definition offline : Http :=
  mkHttp (fun _ => Throw (TypeError "Failed to fetch")) (fun _ => ""%string).

(** A store that answers every request with the given response. *)
Definition answering (r : Response) : Http :=
  mkHttp (fun _ => Ok r)
         (fun v => match v with VString s => s | _ => ""%string end).

Definition clock : DateEnv :=
  mkDateEnv 0%Z (fun _ => None) (fun t k => Some (t + k * 86400000)%Z)
            (fun _ => "1970-01-01T00:00:00.000Z"%string).

End Sample.

(* ================================================================== *)
(** * What is to be proved, in the terms of the descriptions *)

(** ** Sextets and octets *)
Module Base64Spec.

Definition sextet (n : N) : Prop := (n < 64)%N.

Definition octet (n : N) : Prop := (n < 256)%N.

End Base64Spec.

(** ** The balance score *)
Module BalanceSpec.

Import WheelChart.

(** The score in the words of its description: ten minus the population
    standard deviation, not below zero, rounded to one decimal place. *)
Definition mean (values : list float) : float :=
  (sum values / length_num values)%float.

Definition population_stddev (values : list float) : float :=
  let m := mean values in
  Math_sqrt (mean (map (fun v => Math_pow2 (v - m)) values)).

Definition round_to_tenth (x : float) : float :=
  (Math_round (x * 10) / 10)%float.

Definition balanceScore_described (r : Ratings) : float :=
  round_to_tenth (Math_max 0 (10 - population_stddev (Object_values r))%float).

(** A rating set with a single chosen value. *)
Definition uniform (v : float) : Ratings := mkRatings v v v v v v v v v.

Definition key_eqb (a b : Key) : bool :=
  match a, b with
  | Body, Body | Mind, Mind | Soul, Soul | Friends, Friends
  | Romance, Romance | Family, Family | Mission, Mission
  | Money, Money | Growth, Growth => true
  | _, _ => false
  end.

(** The rating set that is [low] at key [k] and [high] everywhere else. *)
Definition all_but_one (k : Key) (low high : float) : Ratings :=
  let at_key k' := if key_eqb k k' then low else high in
  mkRatings (at_key Body) (at_key Mind) (at_key Soul)
            (at_key Friends) (at_key Romance) (at_key Family)
            (at_key Mission) (at_key Money) (at_key Growth).

(** *** The IEEE computation against exact arithmetic

    For integer ratings the score can be computed without rounding errors.
    With [s] the sum of the nine values and [q] the sum of their squares,
    81 times the variance is the integer [9 q - s^2], and [k] tenths is the
    score when [k - 1/2 <= 10 (10 - sigma) < k + 1/2], that is, free of
    square roots, when [9 (199 - 2 k) < 20 sqrt (9 q - s^2) <= 9 (201 - 2 k)]. *)

Definition small_numbers : list float := [0; 1; 2; 3; 4; 5; 6; 7; 8; 9; 10]%float.

(** The rating set holding the integers of [l], from 0 to 10, in order. *)
Definition ratings_of (l : list Z) : Ratings :=
  let v i := nth (Z.to_nat (nth i l 0%Z)) small_numbers 0%float in
  mkRatings (v 0%nat) (v 1%nat) (v 2%nat) (v 3%nat) (v 4%nat)
            (v 5%nat) (v 6%nat) (v 7%nat) (v 8%nat).

Definition dispersion (l : list Z) : Z :=
  (9 * fold_right (fun v a => v * v + a) 0 l
   - Z.square (fold_right Z.add 0 l))%Z.

Definition exactly_rounded (l : list Z) (k : Z) : bool :=
  let q := (400 * dispersion l)%Z in
  ((0 <=? k) && (k <=? 100) && (q <=? 81 * Z.square (201 - 2 * k))
   && ((199 - 2 * k <? 0) || (81 * Z.square (199 - 2 * k) <? q)))%Z.

(** The Numbers 0, 0.1, ..., 10, and the place of a score among them. *)
Definition tenths : list float :=
  Eval vm_compute in
    map (fun k => (Z2num (Z.of_nat k) / 10)%float) (seq 0 101).

Fixpoint place (x : float) (table : list float) (k : Z) : option Z :=
  match table with
  | [] => None
  | y :: rest => if PrimFloat.eqb x y then Some k else place x rest (k + 1)
  end.

(** The score [x] is one of the tenths, and the exactly rounded one. *)
Definition exact_score (l : list Z) (x : float) : bool :=
  match place x tenths 0 with
  | Some k => exactly_rounded l k
  | None => false
  end.

(** Lists of integers up to 10 that start at [lo] or above and never go
    down, and a check of all of them of a given length. *)
Fixpoint nondecreasing (lo : Z) (l : list Z) : Prop :=
  match l with
  | [] => True
  | v :: r => (lo <= v <= 10)%Z /\ nondecreasing v r
  end.

Definition range (lo : Z) : list Z :=
  map (fun i => (lo + Z.of_nat i)%Z) (seq 0 (Z.to_nat (11 - lo))).

Fixpoint all_nondecreasing (n : nat) (lo : Z) (check : list Z -> bool) : bool :=
  match n with
  | O => check []
  | S n' =>
      forallb (fun v => all_nondecreasing n' v (fun l => check (v :: l)))
              (range lo)
  end.

End BalanceSpec.

(** ** The sealed envelope *)
Module EnvelopeSpec.

Import CryptoModule.

(** What the program relies on from the platform. *)
Section Assumptions.

Variable Data : Type.
Variable P : Platform Data.

(** PBKDF2 key derivation succeeds for every non-empty password. *)
Definition derives_keys : Prop :=
  forall (password : string) (salt : list Byte.byte),
    password <> ""%string -> exists key, deriveKey P password salt = Ok key.

(** AES-GCM with a 12-byte nonce: decryption under the key and nonce of the
    encryption gives back the plaintext. *)
Definition aead_correct : Prop :=
  forall (iv : list Byte.byte) (key : CryptoKey P) (plaintext : list Byte.byte),
    List.length iv = 12 ->
    exists ciphertext,
      subtle_encrypt P iv key plaintext = Ok ciphertext
      /\ subtle_decrypt P iv key ciphertext = Ok plaintext.

(** A value is JSON-serializable when its JSON text, encoded and decoded as
    UTF-8, parses back to the value. *)
Definition serializable (D : Data) : Prop :=
  exists json,
    JSON_stringify P D = Ok json
    /\ JSON_parse P (TextDecoder_decode P (TextEncoder_encode P json)) = Ok D.

End Assumptions.

Section Opening.

Variable Data : Type.
Variable P : Platform Data.

(** What [decrypt] reads out of an envelope of that shape. *)
Definition open_parts (salt iv ciphertext : list Byte.byte) (password : string)
  : Result Data :=
  let* key := deriveKey P password salt in
  let* decryptedBuffer := subtle_decrypt P iv key ciphertext in
  JSON_parse P (TextDecoder_decode P decryptedBuffer).

End Opening.

Definition not_base64_report : JsError :=
  Error ("Failed to decrypt data: "
           ++ err_message Base64.InvalidCharacterError).

Definition sealed_sample : string :=
  "AAECAwQFBgcICQoLDA0ODxAREhMUFRYXGBkaG3t9Y29ycmVjdCBob3JzZQABAg==".

End EnvelopeSpec.

(** ** The store *)
Module StoreSpec.

Import GitHubModule.

Definition get_request (pat : string) : Request :=
  mkRequest contents_url "GET" (api_headers pat) None.

Definition not_found : Response :=
  mkResponse 404 "Not Found" (Ok (VObject [("message"%string, VString "Not Found")])).

Definition unauthorized : Response :=
  mkResponse 401 "Unauthorized"
             (Ok (VObject [("message"%string, VString "Bad credentials")])).

End StoreSpec.

(** ** Ranges of dates *)
Module RangeSpec.

(** The test of the description: at or after the start bound when there is
    one, at or before the end bound when there is one. *)
Definition in_range (env : DateEnv) (start stop : option (option Z))
                    (entry : Entry) : bool :=
  let t := Date_parse env (timestamp entry) in
  match start with None => true | Some s => date_le s t end
  && match stop with None => true | Some e => date_le t e end.

Definition within (env : DateEnv) (start stop : option (option Z))
                  (entry : Entry) : Prop :=
  (forall s, start = Some s ->
     exists a t, s = Some a /\ Date_parse env (timestamp entry) = Some t
                 /\ (a <= t)%Z)
  /\ (forall e, stop = Some e ->
        exists t b, Date_parse env (timestamp entry) = Some t /\ e = Some b
                    /\ (t <= b)%Z).

(** The entries of a window of [d] days: dated at or after the current date
    moved back by [d] days. *)
Definition recent (env : DateEnv) (d : Z) (entry : Entry) : Prop :=
  exists cutoff t,
    Date_addDays env (now env) (- d) = Some cutoff
    /\ Date_parse env (timestamp entry) = Some t
    /\ (cutoff <= t)%Z.

Definition entry_with_body (v : float) : Entry :=
  mkEntry "id" "2024-01-01T00:00:00.000Z" (mkRatings v 0 0 0 0 0 0 0 0) "".

Definition thirds : list Entry :=
  [entry_with_body 0; entry_with_body 0; entry_with_body 1].

End RangeSpec.

(** ** The entry log *)
Module AppSpec.

Import GitHubModule App.

(** A rating as the data model wants it: an integer from 0 to 10. *)
Definition valid_rating (x : float) : bool :=
  existsb (fun k => PrimFloat.eqb x (Z2num k))
          [0; 1; 2; 3; 4; 5; 6; 7; 8; 9; 10]%Z.

Definition valid_ratings (r : Ratings) : bool :=
  forallb valid_rating (Object_values r).

Definition save_message : string := "Add new wheel-of-life entry".

(** The state once [entry] is pushed onto the entries of [doc]. *)
Definition with_entry (st : State) (doc : Document) (entry : Entry) : State :=
  mkState (authenticated st) (pat st) (password st)
          (Some (mkDocument (entries doc ++ [entry]) (version doc)))
          (currentSHA st) (currentView st).

(** A session with an empty document loaded. *)
Definition loaded : State :=
  mkState true (Some "token"%string) (Some "correct horse"%string)
          (Some createEmptyData) VNull "dashboard".

(** The store accepting a commit. *)
Definition committed : Response :=
  mkResponse 201 "Created"
    (Ok (VObject [("content"%string,
                   VObject [("sha"%string, VString "3d21ec53a331a6f037a91c368710b99387d012c1")])])).

Definition out_of_range : EntryForm :=
  mkForm "11" "5" "5" "5" "5" "5" "5" "5" "5" "too much".

End AppSpec.

(** ** Further notions, for the rest of the program *)
Module MoreSpec.

Import CryptoModule GitHubModule LocalStorage App Views Session.

(** AES-GCM refuses an input shorter than its 16-byte tag. *)
Definition rejects_short (Data : Type) (P : Platform Data) : Prop :=
  forall (iv : list Byte.byte) (key : CryptoKey P) (sealed : list Byte.byte),
    List.length sealed < 16 ->
    exists e, subtle_decrypt P iv key sealed = Throw e
              /\ err_name e = "OperationError"%string.

(** The request [commitEncryptedData] makes. *)
Definition put_request (pat encryptedData : string) (sha : JsValue)
                       (message : string) : Request :=
  mkRequest contents_url "PUT"
    (api_headers pat
       ++ [("Content-Type"%string, "application/json"%string)])%list
    (Some (mkCommitBody message (Base64.btoa encryptedData) branch
                        (if ToBoolean sha then Some sha else None))).

(** What [commitEncryptedData] makes of the answer to its request. *)
Definition commit_answer (H : Http) (answer : Result Response)
  : Result JsValue :=
  match answer with
  | Throw e => Throw e
  | Ok response =>
      if negb (ok response) then throw_api_error H response
      else json response
  end.

(** The message part of a GitHub error. *)
Definition shown_message (H : Http) (fields : list (string * JsValue))
                         (response : Response) : string :=
  let m := lookup "message" fields in
  ToString H (if ToBoolean m then m else VString (statusText response)).

(** A store that answers a read with the given file and version. *)
Definition file_answer (file : string) (version : JsValue) : Response :=
  mkResponse 200 "OK"
    (Ok (VObject [("content"%string, VString file); ("sha"%string, version)])).

(** The answer to a commit made with a stale version. *)
Definition conflict : Response :=
  mkResponse 409 "Conflict"
    (Ok (VObject [("message"%string,
                   VString "data/wheel-of-life.json.encrypted does not match")])).

(** The outcome of the write [handlePasswordSubmit] makes for the "remember"
    check box, if any. *)
Definition remember_write (q : Limits) (remember : option bool) (s : Storage)
  : Result Storage :=
  match remember with
  | Some true => setItem q REMEMBER_PASSWORD_KEY "true" s
  | _ => Ok s
  end.

(** What the page shows while and after a load. *)
Definition loading : list PageEvent :=
  [Ui PreventDefault; Ui (ShowLoading "Loading your data...")].

Definition decrypt_failed_message : list PageEvent :=
  [Ui HideLoading;
   Ui (ShowError "Failed to decrypt data. Please check your password.")].

(** A platform whose serializer throws. *)
Definition unserializing : Platform (option Document) :=
  Sample.platform
    (fun _ => Throw (TypeError "Converting circular structure to JSON"))
    (fun _ => Throw Sample.SyntaxError).

(** A platform for documents without entries: the serializer writes the
    schema version, the parser reads it back. *)
Definition version_platform : Platform (option Document) :=
  Sample.platform
    (fun d => Ok (match d with
                  | Some doc => version doc
                  | None => "null"%string
                  end))
    (fun s => Ok (if String.eqb s "null" then None
                  else Some (mkDocument [] s))).

(** The answer of a store that accepted a commit but says nothing more. *)
Definition bare_answer : Response := mkResponse 200 "OK" (Ok (VObject [])).

(** Storage that accepts every write, and storage that is full. *)
Definition roomy : Limits := mkLimits (fun _ _ _ => None).

Definition full : Limits :=
  mkLimits (fun _ _ _ =>
              Some (mkError "QuotaExceededError" "The quota has been exceeded.")).

(** The rating set with the whole number [v k] at each key [k]. *)
Definition whole (v : Key -> Z) : Ratings :=
  mkRatings (Z2num (v Body)) (Z2num (v Mind)) (Z2num (v Soul))
            (Z2num (v Friends)) (Z2num (v Romance)) (Z2num (v Family))
            (Z2num (v Mission)) (Z2num (v Money)) (Z2num (v Growth)).

(** Whole numbers on the scale of the sliders. *)
Definition on_scale (v : Key -> Z) : Prop := forall k, (0 <= v k <= 10)%Z.

(** How [calculateChanges] words a gain and a loss at one key. *)
Definition gain (Number_toString : float -> string) (a b : Key -> Z) (k : Key)
  : string :=
  (key_name k ++ " (+" ++ Number_toString (Z2num (a k - b k)) ++ ")")%string.

Definition loss (Number_toString : float -> string) (a b : Key -> Z) (k : Key)
  : string :=
  (key_name k ++ " (" ++ Number_toString (Z2num (a k - b k)) ++ ")")%string.

(** Five everywhere, and the same with a better body and a worse mind. *)
Definition fives : Key -> Z := fun _ => 5%Z.

Definition shifted : Key -> Z :=
  fun k => match k with Body => 8%Z | Mind => 2%Z | _ => 5%Z end.

(** The values a slider from 0 to 10 can have. *)
Definition slider_values : list string :=
  ["0"; "1"; "2"; "3"; "4"; "5"; "6"; "7"; "8"; "9"; "10"]%string.

Definition slider_fields (form : EntryForm) : list string :=
  [rating_body form; rating_mind form; rating_soul form;
   rating_friends form; rating_romance form; rating_family form;
   rating_mission form; rating_money form; rating_growth form].

Definition from_sliders (form : EntryForm) : Prop :=
  Forall (fun value => In value slider_values) (slider_fields form).

(** The form of a version-4 UUID: hexadecimal digits in lower case where the
    template has an [x], one of 8, 9, a and b where it has the [y], and the
    characters of the template elsewhere. *)
Definition is_hex (c : ascii) : bool :=
  let n := N_of_ascii c in
  (((48 <=? n) && (n <=? 57)) || ((97 <=? n) && (n <=? 102)))%N.

Definition fits (t c : ascii) : bool :=
  if Ascii.eqb t "x" then is_hex c
  else if Ascii.eqb t "y" then
    existsb (Ascii.eqb c) ["8"; "9"; "a"; "b"]%char
  else Ascii.eqb t c.

Fixpoint fits_all (t c : list ascii) : bool :=
  match t, c with
  | [], [] => true
  | x :: t', y :: c' => fits x y && fits_all t' c'
  | _, _ => false
  end.

Definition uuid_v4 (s : string) : bool :=
  fits_all (chars "xxxxxxxx-xxxx-4xxx-yxxx-xxxxxxxxxxxx") (chars s).

(** [Math.random() * 16 | 0] is one of 0, ..., 15. *)
Definition nibbles (Data : Type) (P : Platform Data) : Prop :=
  forall g : Random P, (fst (Math_random16 P g) < 16)%N.

(** A calendar in which a timestamp is its own length in days. *)
Definition by_length : DateEnv :=
  mkDateEnv 10 (fun s => Some (Z.of_nat (String.length s)))
            (fun d k => Some (d + k)%Z) (fun _ => "now"%string).

Definition plain_days : DayBounds :=
  mkDayBounds (fun s => Some (Z.of_nat (String.length s)))
              (fun s => Some (Z.of_nat (String.length s))).

(** A session with two entries, the second better at the body. *)
Definition two_entries : State :=
  mkState true (Some "token"%string) (Some "correct horse"%string)
          (Some (mkDocument
                   [mkEntry "a" "1" (whole fives) "";
                    mkEntry "b" "22" (whole shifted) "later"] "1.0"))
          VNull "history".

(** A page on which nobody is signed in yet. *)
Definition signed_out : State :=
  mkState false (Some "token"%string) None None VNull "dashboard".

(** The envelopes of the empty document and of [null] under the password
    "correct horse", made from the generator 0. *)
Definition sealed_empty : string :=
  Eval vm_compute in
    match fst (encrypt version_platform 0 (Some createEmptyData)
                       "correct horse") with
    | Ok envelope => envelope
    | Throw _ => ""%string
    end.

Definition sealed_null : string :=
  Eval vm_compute in
    match fst (encrypt version_platform 0 None "correct horse") with
    | Ok envelope => envelope
    | Throw _ => ""%string
    end.

(** A number shown by its sign alone. *)
Definition as_sign (x : float) : string :=
  if PrimFloat.ltb x 0 then "-" else "+".

End MoreSpec.

(* ================================================================== *)
(** * Properties *)

(** ** The model at work *)
Module Examples.

Import CryptoModule GitHubModule WheelChart App.

(** The test vectors of RFC 4648. *)
Example btoa_vectors :
  map Base64.btoa ["f"; "fo"; "foo"; "foob"; "fooba"; "foobar"]%string
  = ["Zg=="; "Zm8="; "Zm9v"; "Zm9vYg=="; "Zm9vYmE="; "Zm9vYmFy"]%string.
Proof. reflexivity. Qed.

(** [atob] skips white space and accepts a missing padding, but not a
    padding that is too short nor a length of one more than a multiple of
    four. *)
Example atob_forgiving :
  Base64.atob "Zm9v YmFy" = Ok "foobar"%string
  /\ Base64.atob "Zm9vYg" = Ok "foob"%string
  /\ Base64.atob "Zm9vYg=" = Throw Base64.InvalidCharacterError
  /\ Base64.atob "Zm9vY" = Throw Base64.InvalidCharacterError.
Proof. repeat split; reflexivity. Qed.

Example parseInt_values :
  parseInt "7" = 7%float /\ parseInt " 10" = 10%float
  /\ parseInt "11" = 11%float /\ parseInt "-3px" = (-3)%float
  /\ parseInt "0x1F" = 31%float
  /\ PrimFloat.eqb (parseInt "") (parseInt "") = false.
Proof. repeat split; vm_compute; reflexivity. Qed.

Example Math_round_values :
  Math_round (5 / 2) = 3%float /\ Math_round (- (5 / 2)) = (-2)%float
  /\ Math_round (694 / 10) = 69%float /\ Math_round (695 / 10) = 70%float.
Proof. repeat split; vm_compute; reflexivity. Qed.

Example includes_values :
  includes "Failed to decrypt" "decrypt" = true
  /\ includes "The operation failed" "decrypt" = false.
Proof. split; reflexivity. Qed.

(** With body, mind and soul at 10 and the rest at 0, health averages 10 and
    work 0. *)
Example category_averages :
  getCategoryAverage (mkRatings 10 10 10 0 0 0 0 0 0) health = 10%float
  /\ getCategoryAverage (mkRatings 10 10 10 0 0 0 0 0 0) work = 0%float.
Proof. split; vm_compute; reflexivity. Qed.

(** Ratings alternating between 0 and 10 average 5 like nine 5s do, and
    score 5 for balance. *)
Example alternating_balance :
  getBalanceScore (mkRatings 0 10 0 10 0 10 0 10 0) = 5%float.
Proof. vm_compute. reflexivity. Qed.

(** The random digits 0, 1, 2, ... give this identifier: the version digit
    stays and the variant digit is 8, 9, a or b. *)
Example generateUUID_value :
  fst (generateUUID Sample.app_platform 0)
  = "01234567-89ab-4cde-b012-3456789abcde"%string.
Proof. vm_compute. reflexivity. Qed.

End Examples.

(** ** The base64 codec *)
Module Base64Facts.

Import Base64 Base64Spec.

Lemma list_ind3 (A : Type) (Q : list A -> Prop) :
  Q [] -> (forall a, Q [a]) -> (forall a b, Q [a; b]) ->
  (forall a b c r, Q r -> Q (a :: b :: c :: r)) ->
  forall l, Q l.
Proof.
  intros H0 H1 H2 H3.
  assert (G : forall l, Q l /\ (forall a, Q (a :: l)) /\ (forall a b, Q (a :: b :: l))).
  { induction l as [|x l IH].
    - repeat split; auto.
    - destruct IH as (IH0 & IH1 & IH2). repeat split; auto. }
  intro l. apply G.
Qed.

Lemma below_in_range (k : nat) (n : N) :
  (n < N.of_nat k)%N -> In n (map N.of_nat (seq 0 k)).
Proof.
  intro Hn. apply in_map_iff. exists (N.to_nat n). split.
  - apply N2Nat.id.
  - apply in_seq. lia.
Qed.

Lemma b64_index_char (n : N) : (n < 64)%N -> b64_index (b64_char n) = Some n.
Proof.
  intro Hn.
  assert (All : forallb (fun m => match b64_index (b64_char m) with
                                  | Some k => (k =? m)%N
                                  | None => false
                                  end) (map N.of_nat (seq 0 64)) = true)
    by (vm_compute; reflexivity).
  rewrite forallb_forall in All.
  specialize (All n (@below_in_range 64 n Hn)).
  destruct (b64_index (b64_char n)); [|discriminate].
  apply N.eqb_eq in All. now subst.
Qed.

Lemma b64_index_plain (c : ascii) (n : N) :
  b64_index c = Some n -> is_ascii_whitespace c = false /\ is_pad c = false.
Proof.
  destruct c as [[|] [|] [|] [|] [|] [|] [|] [|]]; vm_compute;
    intro E; (discriminate E || (split; reflexivity)).
Qed.

Ltac euclid := Z.to_euclidean_division_equations; lia.

Lemma encode_sextets_bound (l : list N) :
  Forall octet l -> Forall sextet (encode_sextets l).
Proof.
  unfold octet, sextet.
  induction l as [| a | a b | a b c r IH] using list_ind3; intro Hl; simpl.
  - constructor.
  - inversion_clear Hl as [|? ? Ha _].
    repeat constructor; zify; euclid.
  - inversion_clear Hl as [|? ? Ha Hl']. inversion_clear Hl' as [|? ? Hb _].
    repeat constructor; zify; euclid.
  - inversion_clear Hl as [|? ? Ha Hl']. inversion_clear Hl' as [|? ? Hb Hl''].
    inversion_clear Hl'' as [|? ? Hc Hr].
    repeat (constructor; [zify; euclid|]). now apply IH.
Qed.

Lemma decode_encode_sextets (l : list N) :
  Forall octet l -> decode_sextets (encode_sextets l) = l.
Proof.
  unfold octet.
  induction l as [| a | a b | a b c r IH] using list_ind3; intro Hl.
  - reflexivity.
  - inversion_clear Hl as [|? ? Ha _]. cbn [encode_sextets decode_sextets].
    f_equal. zify; euclid.
  - inversion_clear Hl as [|? ? Ha Hl']. inversion_clear Hl' as [|? ? Hb _].
    cbn [encode_sextets decode_sextets].
    f_equal; [|f_equal]; zify; euclid.
  - inversion_clear Hl as [|? ? Ha Hl']. inversion_clear Hl' as [|? ? Hb Hl''].
    inversion_clear Hl'' as [|? ? Hc Hr].
    cbn [encode_sextets decode_sextets]. rewrite (IH Hr).
    f_equal; [|f_equal; [|f_equal]]; zify; euclid.
Qed.

Lemma indices_chars (l : list N) :
  Forall sextet l -> indices (map b64_char l) = Some l.
Proof.
  induction 1 as [|n l Hn _ IH]; simpl.
  - reflexivity.
  - now rewrite (b64_index_char Hn), IH.
Qed.

Lemma chars_plain (l : list N) :
  Forall sextet l ->
  Forall (fun c => is_ascii_whitespace c = false /\ is_pad c = false)
         (map b64_char l).
Proof.
  induction 1 as [|n l Hn _ IH]; simpl; constructor; auto.
  exact (b64_index_plain _ (b64_index_char Hn)).
Qed.

Lemma filter_keeps_all (A : Type) (f : A -> bool) (l : list A) :
  Forall (fun x => f x = true) l -> filter f l = l.
Proof.
  induction 1 as [|x l Hx _ IH]; simpl; [reflexivity|].
  now rewrite Hx, IH.
Qed.

(** The number of sextets, and with it the padding, follows the number of
    bytes modulo three. *)
Lemma encode_sextets_length (l : list N) :
  (List.length l mod 3 = 0 /\ List.length (encode_sextets l) mod 4 = 0)
  \/ (List.length l mod 3 = 1 /\ List.length (encode_sextets l) mod 4 = 2)
  \/ (List.length l mod 3 = 2 /\ List.length (encode_sextets l) mod 4 = 3).
Proof.
  induction l as [| a | a b | a b c r IH] using list_ind3.
  - left. split; reflexivity.
  - right. left. split; reflexivity.
  - right. right. split; reflexivity.
  - cbn [encode_sextets List.length].
    replace (S (S (S (List.length r)))) with (List.length r + 1 * 3) by lia.
    replace (S (S (S (S (List.length (encode_sextets r))))))
      with (List.length (encode_sextets r) + 1 * 4) by lia.
    rewrite !Nat.Div0.mod_add. exact IH.
Qed.

Lemma last_not_pad (B : list ascii) (c : ascii) (r : list ascii) :
  Forall (fun c => is_ascii_whitespace c = false /\ is_pad c = false) B ->
  rev B = c :: r -> is_pad c = false.
Proof.
  intros HB E.
  assert (Hin : In c B) by (apply in_rev; rewrite E; now left).
  rewrite Forall_forall in HB. now apply HB.
Qed.

Lemma strip_padding_encoded (l : list N) :
  Forall octet l ->
  strip_padding (map b64_char (encode_sextets l) ++ padding (List.length l))
  = map b64_char (encode_sextets l).
Proof.
  intro Hl.
  pose proof (chars_plain (encode_sextets_bound Hl)) as HB.
  pose proof (encode_sextets_length l) as HL.
  set (B := map b64_char (encode_sextets l)) in *.
  assert (LB : List.length B = List.length (encode_sextets l))
    by (unfold B; apply length_map).
  unfold strip_padding, padding.
  destruct HL as [[E3 E4] | [[E3 E4] | [E3 E4]]]; rewrite E3.
  - rewrite app_nil_r, LB, E4. cbn [Nat.eqb].
    destruct (rev B) as [|c1 r1] eqn:ER; [reflexivity|].
    now rewrite (last_not_pad HB ER).
  - assert (E : (List.length (B ++ ["="; "="]%char) mod 4 =? 0)%nat = true).
    { rewrite length_app, LB. cbn [List.length]. apply Nat.eqb_eq.
      replace (List.length (encode_sextets l) + 2)
        with (2 + List.length (encode_sextets l)) by lia.
      rewrite <- Nat.Div0.add_mod_idemp_r, E4. reflexivity. }
    rewrite E, rev_app_distr. cbn [rev app is_pad Ascii.eqb Bool.eqb].
    apply rev_involutive.
  - assert (E : (List.length (B ++ ["="]%char) mod 4 =? 0)%nat = true).
    { rewrite length_app, LB. cbn [List.length]. apply Nat.eqb_eq.
      replace (List.length (encode_sextets l) + 1)
        with (1 + List.length (encode_sextets l)) by lia.
      rewrite <- Nat.Div0.add_mod_idemp_r, E4. reflexivity. }
    rewrite E, rev_app_distr. cbn [rev app is_pad Ascii.eqb Bool.eqb].
    destruct (rev B) as [|c2 r2] eqn:ER.
    + apply (f_equal (@List.length ascii)) in ER.
      rewrite length_rev, LB in ER. rewrite ER in E4. discriminate E4.
    + rewrite (last_not_pad HB ER), <- ER. apply rev_involutive.
Qed.

Lemma codes_are_octets (s : string) : Forall octet (map charCodeAt (chars s)).
Proof.
  apply Forall_forall. intros n Hn. apply in_map_iff in Hn.
  destruct Hn as (c & <- & _). apply N_ascii_bounded.
Qed.

Lemma padding_plain (k : nat) :
  Forall (fun c => is_ascii_whitespace c = false) (padding k).
Proof.
  unfold padding. destruct (k mod 3) as [|[|[|?]]]; repeat constructor.
Qed.

(** [atob] undoes [btoa] on every binary string. *)
Lemma atob_btoa (s : string) : atob (btoa s) = Ok s.
Proof.
  pose proof (codes_are_octets s) as Hoct.
  pose proof (encode_sextets_bound Hoct) as Hsext.
  assert (D : strip_padding
                (filter (fun c => negb (is_ascii_whitespace c)) (chars (btoa s)))
              = map b64_char (encode_sextets (map charCodeAt (chars s)))).
  { unfold btoa. unfold chars at 1, text.
    rewrite list_ascii_of_string_of_list_ascii, filter_keeps_all.
    - apply (strip_padding_encoded Hoct).
    - apply Forall_app. split.
      + eapply Forall_impl; [|exact (chars_plain Hsext)].
        intros c [Hc _]. now rewrite Hc.
      + eapply Forall_impl; [|exact (padding_plain _)].
        intros c Hc. now rewrite Hc. }
  unfold atob. cbv zeta. rewrite D, length_map.
  assert (E : (List.length (encode_sextets (map charCodeAt (chars s))) mod 4
               =? 1)%nat = false).
  { destruct (encode_sextets_length (map charCodeAt (chars s)))
      as [[_ E] | [[_ E] | [_ E]]]; now rewrite E. }
  rewrite E, (indices_chars Hsext), (decode_encode_sextets Hoct).
  unfold charCodeAt. rewrite map_map.
  rewrite (map_ext _ (fun c => c)) by apply ascii_N_embedding.
  rewrite map_id. unfold text, chars.
  now rewrite string_of_list_ascii_of_string.
Qed.

End Base64Facts.

(** ** The envelope codec of CryptoModule *)
Module CodecFacts.

Import CryptoModule.

Lemma append_empty (s : string) : (s ++ "")%string = s.
Proof. induction s as [|c s IH]; simpl; [reflexivity | now rewrite IH]. Qed.

Lemma append_assoc (a b c : string) :
  ((a ++ b) ++ c)%string = (a ++ (b ++ c))%string.
Proof. induction a as [|x a IH]; simpl; [reflexivity | now rewrite IH]. Qed.

(** The loop of [arrayBufferToBase64] builds the string of the bytes. *)
Lemma binary_of_bytes (buffer : list Byte.byte) (acc : string) :
  fold_left (fun acc b => acc ++ String (fromCharCode b) "")%string buffer acc
  = (acc ++ text (map fromCharCode buffer))%string.
Proof.
  revert acc. induction buffer as [|b buffer IH]; intro acc; simpl.
  - now rewrite append_empty.
  - rewrite IH, append_assoc. reflexivity.
Qed.

Lemma bytes_of_binary (buffer : list Byte.byte) :
  map (fun c => toUint8 (charCodeAt c)) (chars (text (map fromCharCode buffer)))
  = buffer.
Proof.
  unfold chars, text. rewrite list_ascii_of_string_of_list_ascii, map_map.
  rewrite <- (map_id buffer) at 2. apply map_ext. intro b.
  unfold toUint8, charCodeAt, fromCharCode.
  now rewrite ascii_N_embedding, byte_of_ascii_of_byte.
Qed.

Lemma base64_roundtrip_bytes (b : list Byte.byte) :
  base64ToArrayBuffer (arrayBufferToBase64 b) = Ok b.
Proof.
  unfold base64ToArrayBuffer, arrayBufferToBase64.
  rewrite binary_of_bytes. cbn [append].
  rewrite Base64Facts.atob_btoa. cbn [bind].
  now rewrite bytes_of_binary.
Qed.

(** C10: the transport codec loses nothing: for every byte array [b],
    [base64ToArrayBuffer(arrayBufferToBase64(b))] returns a byte array equal
    to [b]. *)
Theorem base64_codec_roundtrip (b : list Byte.byte) :
  base64ToArrayBuffer (arrayBufferToBase64 b) = Ok b.
Proof.
  unfold base64ToArrayBuffer, arrayBufferToBase64.
  rewrite binary_of_bytes. cbn [append bind].
  rewrite Base64Facts.atob_btoa. cbn [bind]. f_equal.
  apply bytes_of_binary.
Qed.

End CodecFacts.

(** ** The balance score *)
Module BalanceFacts.

Import WheelChart BalanceSpec.

Lemma fold_left_map_sum (f : float -> float) (l : list float) (acc : float) :
  fold_left (fun s v => (s + f v)%float) l acc
  = fold_left (fun x y => (x + y)%float) (map f l) acc.
Proof.
  revert acc. induction l as [|v l IH]; intro acc; simpl; [reflexivity|].
  apply IH.
Qed.

Lemma getBalanceScore_described (r : Ratings) :
  getBalanceScore r = balanceScore_described r.
Proof.
  unfold getBalanceScore, balanceScore_described, round_to_tenth,
    population_stddev, mean, sum.
  cbv zeta. rewrite fold_left_map_sum. unfold length_num.
  now rewrite length_map.
Qed.

(** C6: for every rating set the balance score is ten minus the population
    standard deviation of the nine values, floored at zero and rounded to one
    decimal place; nine values of 5 score exactly 10, and a single 0 among
    eight 10s, at whichever key, scores 6.9, strictly less than 10. *)
Theorem balance_score_formula :
  (forall r : Ratings, getBalanceScore r = balanceScore_described r)
  /\ getBalanceScore (uniform 5) = 10%float
  /\ (forall k : Key,
        getBalanceScore (all_but_one k 0 10) = (69 / 10)%float
        /\ PrimFloat.ltb (getBalanceScore (all_but_one k 0 10)) 10 = true).
Proof.
  split; [exact getBalanceScore_described|]. split.
  - vm_compute. reflexivity.
  - intro k. destruct k; split; vm_compute; reflexivity.
Qed.

Lemma in_range_iff (lo v : Z) : (lo <= v <= 10)%Z -> In v (range lo).
Proof.
  intro Hv. unfold range. apply in_map_iff.
  exists (Z.to_nat (v - lo)). split; [lia|]. apply in_seq. lia.
Qed.

Lemma all_nondecreasing_sound (n : nat) :
  forall (lo : Z) (check : list Z -> bool),
    all_nondecreasing n lo check = true ->
    forall l, List.length l = n -> nondecreasing lo l -> check l = true.
Proof.
  induction n as [|n IH]; intros lo check All l Len Sorted.
  - destruct l; [exact All | discriminate Len].
  - destruct l as [|v r]; [discriminate Len|].
    destruct Sorted as [Hv Hr]. cbn [all_nondecreasing] in All.
    rewrite forallb_forall in All.
    apply (IH v (fun l => check (v :: l))).
    + apply All. now apply in_range_iff.
    + now injection Len.
    + exact Hr.
Qed.

Lemma place_found (x : float) (table : list float) (k0 k : Z) :
  place x table k0 = Some k ->
  (k0 <= k)%Z
  /\ exists y, nth_error table (Z.to_nat (k - k0)) = Some y
               /\ PrimFloat.eqb x y = true.
Proof.
  revert k0. induction table as [|y rest IH]; intros k0 E; [discriminate|].
  cbn [place] in E. destruct (PrimFloat.eqb x y) eqn:Exy.
  - injection E as <-. split; [lia|]. exists y.
    now rewrite Z.sub_diag.
  - destruct (IH _ E) as (Hk & z & Hz & Exz). split; [lia|]. exists z.
    replace (Z.to_nat (k - k0)) with (S (Z.to_nat (k - (k0 + 1)))) by lia.
    now split.
Qed.

Lemma tenths_values (k : nat) (y : float) :
  nth_error tenths k = Some y -> y = (Z2num (Z.of_nat k) / 10)%float.
Proof.
  assert (E : tenths
              = map (fun k => (Z2num (Z.of_nat k) / 10)%float) (seq 0 101))
    by (vm_compute; reflexivity).
  rewrite E, nth_error_map, nth_error_seq. intro N.
  destruct (k <? 101)%nat; [|discriminate N].
  cbn [option_map Nat.add] in N. now injection N as <-.
Qed.

Lemma exact_score_inv (l : list Z) (x : float) :
  exact_score l x = true ->
  exists k,
    exactly_rounded l k = true
    /\ PrimFloat.eqb x (Z2num k / 10)%float = true.
Proof.
  unfold exact_score. intro A.
  destruct (place x tenths 0) as [k|] eqn:Pl; [|discriminate A].
  destruct (place_found _ _ _ Pl) as (Hk & y & Hy & Exy).
  rewrite Z.sub_0_r in Hy. apply tenths_values in Hy.
  rewrite Z2Nat.id in Hy by exact Hk. subst y.
  exists k. now split.
Qed.

Lemma all_sorted_agree :
  all_nondecreasing 9 0
    (fun l => exact_score l (getBalanceScore (ratings_of l))) = true.
Proof. vm_compute. reflexivity. Qed.

(** On every set of nine integer ratings listed in nondecreasing order, the
    score computed in binary64 is the exactly rounded one. *)
Lemma balance_score_exact_when_sorted (l : list Z) :
  List.length l = 9 -> nondecreasing 0 l ->
  exists k,
    exactly_rounded l k = true
    /\ PrimFloat.eqb (getBalanceScore (ratings_of l)) (Z2num k / 10)%float
       = true.
Proof.
  intros Len Sorted. apply exact_score_inv.
  exact (@all_nondecreasing_sound 9 0%Z _ all_sorted_agree l Len Sorted).
Qed.

End BalanceFacts.

(** ** The sealed envelope *)
Module EnvelopeFacts.

Import CryptoModule EnvelopeSpec.

Section Layout.

Variable Data : Type.
Variable P : Platform Data.

Lemma getRandomValues_length (n : nat) (g : Random P) :
  List.length (fst (getRandomValues P g n)) = n.
Proof.
  revert g. induction n as [|n IH]; intro g; simpl; [reflexivity|].
  destruct (random_byte P g) as [b g1]. specialize (IH g1).
  destruct (getRandomValues P g1 n) as [rest g2]. simpl in *. now rewrite IH.
Qed.

(** Writing [source] right after a prefix of a zero-filled array. *)
Lemma set_after_prefix (pre source : list Byte.byte) (n : nat) :
  Uint8Array_set (pre ++ Uint8Array_new (List.length source + n)) source
                 (List.length pre)
  = Ok (pre ++ source ++ Uint8Array_new n).
Proof.
  unfold Uint8Array_set, Uint8Array_new.
  rewrite length_app, repeat_length.
  replace (List.length pre + List.length source
           <=? List.length pre + (List.length source + n))%nat with true
    by (symmetry; apply Nat.leb_le; lia).
  f_equal. rewrite firstn_app, firstn_all, Nat.sub_diag. cbn [firstn].
  rewrite app_nil_r. f_equal. f_equal.
  rewrite skipn_app, skipn_all2 by lia. cbn [app].
  replace (List.length pre + List.length source - List.length pre)
    with (List.length source) by lia.
  rewrite repeat_app, skipn_app, repeat_length, Nat.sub_diag.
  rewrite skipn_all2 by (rewrite repeat_length; lia). reflexivity.
Qed.

(** The three [set] calls of [encrypt] build the concatenation. *)
Lemma combine_concat (salt iv encryptedBuffer : list Byte.byte) :
  combine salt iv encryptedBuffer = Ok (salt ++ iv ++ encryptedBuffer).
Proof.
  unfold combine.
  pose proof (set_after_prefix [] salt
                (List.length iv + List.length encryptedBuffer)) as S1.
  cbn [app List.length] in S1.
  rewrite Nat.add_assoc in S1. rewrite S1. cbn [bind].
  rewrite (set_after_prefix salt iv (List.length encryptedBuffer)). cbn [bind].
  pose proof (set_after_prefix (salt ++ iv) encryptedBuffer 0) as S3.
  rewrite Nat.add_0_r, <- app_assoc, length_app in S3.
  replace (Uint8Array_new (List.length encryptedBuffer))
    with (Uint8Array_new (List.length encryptedBuffer) ++ []) at 1
    by apply app_nil_r.
  unfold Uint8Array_new at 2 in S3. cbn [repeat] in S3.
  rewrite app_nil_r in S3 |- *. rewrite S3, <- app_assoc. reflexivity.
Qed.

Lemma firstn_exact (A : Type) (n : nat) (a b : list A) :
  List.length a = n -> firstn n (a ++ b) = a.
Proof.
  intros <-. rewrite firstn_app, Nat.sub_diag, firstn_all. cbn [firstn].
  apply app_nil_r.
Qed.

Lemma skipn_exact (A : Type) (n : nat) (a b : list A) :
  List.length a = n -> skipn n (a ++ b) = b.
Proof.
  intros <-. rewrite skipn_app, Nat.sub_diag, skipn_all. reflexivity.
Qed.

Lemma slices_of_concat (salt iv rest : list Byte.byte) :
  List.length salt = 16 -> List.length iv = 12 ->
  slice 0 16 (salt ++ iv ++ rest) = salt
  /\ slice 16 28 (salt ++ iv ++ rest) = iv
  /\ slice_from 28 (salt ++ iv ++ rest) = rest.
Proof.
  intros Hs Hi. unfold slice, slice_from. repeat split.
  - change (16 - 0) with 16. change (skipn 0 (salt ++ iv ++ rest))
      with (salt ++ iv ++ rest). now apply firstn_exact.
  - change (28 - 16) with 12. rewrite (@skipn_exact _ 16 salt (iv ++ rest) Hs).
    now apply firstn_exact.
  - rewrite app_assoc. apply skipn_exact. rewrite length_app. lia.
Qed.

(** What a successful run of the body of [encrypt] has computed. *)
Lemma encrypt_body_inv (salt iv : list Byte.byte) (data : Data)
                       (password envelope : string) :
  encrypt_body P salt iv data password = Ok envelope ->
  exists key json ciphertext,
    deriveKey P password salt = Ok key
    /\ JSON_stringify P data = Ok json
    /\ subtle_encrypt P iv key (TextEncoder_encode P json) = Ok ciphertext
    /\ envelope = arrayBufferToBase64 (salt ++ iv ++ ciphertext).
Proof.
  unfold encrypt_body. intro E.
  destruct (deriveKey P password salt) as [key|] eqn:EK; [|discriminate].
  cbn [bind] in E.
  destruct (JSON_stringify P data) as [json|] eqn:EJ; [|discriminate].
  cbn [bind] in E.
  destruct (subtle_encrypt P iv key (TextEncoder_encode P json))
    as [ciphertext|] eqn:EC; [|discriminate].
  cbn [bind] in E. rewrite combine_concat in E. cbn [bind] in E.
  exists key, json, ciphertext. repeat split; congruence.
Qed.

Lemma decrypt_body_parts (salt iv ciphertext : list Byte.byte)
                         (password : string) :
  List.length salt = 16 -> List.length iv = 12 ->
  decrypt_body P (arrayBufferToBase64 (salt ++ iv ++ ciphertext)) password
  = open_parts P salt iv ciphertext password.
Proof.
  intros Hs Hi. unfold decrypt_body, open_parts.
  rewrite CodecFacts.base64_roundtrip_bytes. cbn [bind].
  destruct (slices_of_concat salt iv ciphertext Hs Hi) as (-> & -> & ->).
  reflexivity.
Qed.

End Layout.

Section Envelope.

Variable Data : Type.
Variable P : Platform Data.

(** C4: the envelope that [encrypt] returns decodes from base64 to the salt
    (16 bytes, at 0..15), then the nonce (12 bytes, at 16..27), then the
    ciphertext with its tag (from 28 on), and the slices [decrypt] takes of
    it are exactly that salt, nonce and ciphertext. *)
Theorem envelope_layout (g : Random P) (data : Data)
                        (password envelope : string) :
  fst (encrypt P g data password) = Ok envelope ->
  let salt := fst (getRandomValues P g 16) in
  let iv := fst (getRandomValues P (snd (getRandomValues P g 16)) 12) in
  exists key json ciphertext,
    deriveKey P password salt = Ok key
    /\ JSON_stringify P data = Ok json
    /\ subtle_encrypt P iv key (TextEncoder_encode P json) = Ok ciphertext
    /\ base64ToArrayBuffer envelope = Ok (salt ++ iv ++ ciphertext)
    /\ List.length salt = 16 /\ List.length iv = 12
    /\ slice 0 16 (salt ++ iv ++ ciphertext) = salt
    /\ slice 16 28 (salt ++ iv ++ ciphertext) = iv
    /\ slice_from 28 (salt ++ iv ++ ciphertext) = ciphertext
    /\ forall password',
         decrypt_body P envelope password'
         = open_parts P salt iv ciphertext password'.
Proof.
  intros E salt iv. unfold encrypt in E.
  pose proof (getRandomValues_length P 16 g) as Hs.
  pose proof (getRandomValues_length P 12 (snd (getRandomValues P g 16))) as Hi.
  fold salt in Hs. fold iv in Hi.
  destruct (getRandomValues P g 16) as [salt0 g1]. cbn [fst snd] in *.
  destruct (getRandomValues P g1 12) as [iv0 g2]. cbn [fst snd] in *.
  subst salt iv. unfold try_catch in E.
  destruct (encrypt_body P salt0 iv0 data password) as [env|] eqn:EB;
    [|discriminate].
  injection E as ->.
  destruct (encrypt_body_inv _ _ _ _ _ EB) as (key & json & ct & K & J & C & ->).
  exists key, json, ct.
  destruct (slices_of_concat salt0 iv0 ct Hs Hi) as (S1 & S2 & S3).
  repeat (split; [assumption || apply CodecFacts.base64_roundtrip_bytes|]).
  intro password'. now apply decrypt_body_parts.
Qed.

(** C1: for every JSON-serializable document [D] and every non-empty
    password, [encrypt] succeeds and [decrypt] of its envelope with the same
    password returns exactly [D]. *)
Theorem decrypt_encrypt_roundtrip (g : Random P) (D : Data) (password : string) :
  password <> ""%string ->
  derives_keys P -> aead_correct P -> serializable P D ->
  exists envelope,
    fst (encrypt P g D password) = Ok envelope
    /\ decrypt P envelope password = Ok D.
Proof.
  intros Hpw Hkeys Haead (json & J & Back).
  unfold encrypt.
  pose proof (getRandomValues_length P 16 g) as Hs.
  pose proof (getRandomValues_length P 12 (snd (getRandomValues P g 16))) as Hi.
  destruct (getRandomValues P g 16) as [salt g1]. cbn [fst snd] in *.
  destruct (getRandomValues P g1 12) as [iv g2]. cbn [fst snd] in *.
  destruct (Hkeys password salt Hpw) as (key & K).
  destruct (Haead iv key (TextEncoder_encode P json) Hi) as (ct & C & Open).
  exists (arrayBufferToBase64 (salt ++ iv ++ ct)). split.
  - unfold encrypt_body. rewrite K. cbn [bind]. rewrite J. cbn [bind].
    rewrite C. cbn [bind]. rewrite combine_concat. reflexivity.
  - unfold decrypt. rewrite (decrypt_body_parts P salt iv ct password Hs Hi).
    unfold open_parts. rewrite K. cbn [bind]. rewrite Open. cbn [bind].
    rewrite Back. reflexivity.
Qed.

End Envelope.

(** The sample platform meets the assumptions. *)
Lemma sample_derives_keys (Data : Type) (str : Data -> Result string)
                          (parse : string -> Result Data) :
  derives_keys (Sample.platform str parse).
Proof. intros password salt _. eexists. reflexivity. Qed.

Lemma bytes_eqb_refl (a : list Byte.byte) : Sample.bytes_eqb a a = true.
Proof.
  induction a as [|x a IH]; simpl; [reflexivity|].
  rewrite IH, andb_true_r. destruct x; reflexivity.
Qed.

Lemma tag_length (key iv : list Byte.byte) :
  List.length (Sample.tag key iv) = 16.
Proof.
  unfold Sample.tag. rewrite length_firstn, !length_app, repeat_length. lia.
Qed.

Lemma sample_aead_correct (Data : Type) (str : Data -> Result string)
                          (parse : string -> Result Data) :
  aead_correct (Sample.platform str parse).
Proof.
  intros iv key plaintext Hiv. cbn [Sample.platform subtle_encrypt subtle_decrypt].
  exists (plaintext ++ Sample.tag key iv). unfold Sample.seal, Sample.unseal.
  rewrite Hiv, length_app, tag_length. cbn [Nat.eqb orb].
  replace (List.length plaintext + 16 <? 16)%nat with false
    by (symmetry; apply Nat.ltb_ge; lia).
  replace (List.length plaintext + 16 - 16) with (List.length plaintext) by lia.
  rewrite (@skipn_exact _ _ plaintext (Sample.tag key iv) eq_refl).
  rewrite bytes_eqb_refl.
  rewrite (@firstn_exact _ _ plaintext (Sample.tag key iv) eq_refl).
  split; reflexivity.
Qed.

Lemma envelope_layout_witness :
  let P := Sample.text_platform in
  let envelope :=
    "AAECAwQFBgcICQoLDA0ODxAREhMUFRYXGBkaG3t9Y29ycmVjdCBob3JzZQABAg=="%string in
  let salt := fst (getRandomValues P 0 16) in
  let iv := fst (getRandomValues P (snd (getRandomValues P 0 16)) 12) in
  fst (encrypt P 0 "{}"%string "correct horse"%string) = Ok envelope
  /\ exists ciphertext,
       base64ToArrayBuffer envelope = Ok (salt ++ iv ++ ciphertext)
       /\ slice 0 16 (salt ++ iv ++ ciphertext) = salt
       /\ slice 16 28 (salt ++ iv ++ ciphertext) = iv
       /\ slice_from 28 (salt ++ iv ++ ciphertext) = ciphertext.
Proof.
  intros P envelope salt iv.
  assert (E : fst (encrypt P 0 "{}"%string "correct horse"%string) = Ok envelope)
    by (vm_compute; reflexivity).
  split; [exact E|].
  destruct (@envelope_layout string P 0 "{}"%string "correct horse"%string
              envelope E)
    as (key & json & ct & _ & _ & _ & B & _ & _ & S1 & S2 & S3 & _).
  exists ct. repeat split; assumption.
Defined.

Lemma decrypt_encrypt_roundtrip_witness :
  exists envelope,
    fst (encrypt Sample.text_platform 0 "{}"%string "correct horse"%string)
    = Ok envelope
    /\ decrypt Sample.text_platform envelope "correct horse"%string
       = Ok "{}"%string.
Proof.
  apply (@decrypt_encrypt_roundtrip string Sample.text_platform 0 "{}"%string
           "correct horse"%string).
  - discriminate.
  - apply sample_derives_keys.
  - apply sample_aead_correct.
  - exists "{}"%string. split; reflexivity.
Defined.

End EnvelopeFacts.

(** ** How [decrypt] reports failures *)
Module FailureFacts.

Import CryptoModule EnvelopeSpec.

(** [atob] has a single way to fail. *)
Lemma atob_throws (s : string) (e : JsError) :
  Base64.atob s = Throw e -> e = Base64.InvalidCharacterError.
Proof.
  unfold Base64.atob. cbv zeta.
  destruct (_ =? 1)%nat; [congruence|].
  destruct (Base64.indices _); [discriminate | congruence].
Qed.

Section Failures.

Variable Data : Type.
Variable P : Platform Data.

(** C2, as the code has it: every failure of [decrypt] is rethrown as a
    plain [Error]; a cause named [OperationError] (what AES-GCM raises when
    the tag does not verify) or mentioning "decrypt" gives the one fixed
    "Decryption failed" error, any other cause gives "Failed to decrypt
    data: " followed by the message of the cause, as an envelope that is not
    base64 does. *)
Theorem decrypt_failure_report :
  (forall (encryptedData password : string) (e : JsError),
      decrypt P encryptedData password = Throw e ->
      exists cause,
        decrypt_body P encryptedData password = Throw cause
        /\ err_name e = "Error"%string
        /\ ((err_name cause = "OperationError"%string
             \/ includes (err_message cause) "decrypt" = true) ->
            e = DecryptionFailed)
        /\ (err_name cause <> "OperationError"%string ->
            includes (err_message cause) "decrypt" = false ->
            e = Error ("Failed to decrypt data: " ++ err_message cause)))
  /\ (forall (encryptedData password : string),
        is_ok (Base64.atob encryptedData) = false ->
        decrypt P encryptedData password = Throw not_base64_report)
  /\ (forall (encryptedData password : string) (combined : list Byte.byte)
             (key : CryptoKey P) (cause : JsError),
        base64ToArrayBuffer encryptedData = Ok combined ->
        deriveKey P password (slice 0 16 combined) = Ok key ->
        subtle_decrypt P (slice 16 28 combined) key (slice_from 28 combined)
        = Throw cause ->
        err_name cause = "OperationError"%string ->
        decrypt P encryptedData password = Throw DecryptionFailed).
Proof.
  split; [|split].
  - intros encryptedData password e. unfold decrypt, try_catch.
    destruct (decrypt_body P encryptedData password) as [d|cause];
      [discriminate|].
    intro E. exists cause. split; [reflexivity|].
    destruct (String.eqb_spec (err_name cause) "OperationError") as [N|N];
      cbn [orb] in E.
    + injection E as <-. repeat split; auto. intro N'. now elim N'.
    + destruct (includes (err_message cause) "decrypt") eqn:I;
        injection E as <-; repeat split; auto.
      * intros _ I'. discriminate I'.
      * intros [N'|I']; [now elim N | discriminate I'].
  - intros encryptedData password Hfail. unfold decrypt, decrypt_body,
      base64ToArrayBuffer.
    destruct (Base64.atob encryptedData) as [binary|e] eqn:A;
      [discriminate Hfail|].
    rewrite (atob_throws _ A). reflexivity.
  - intros encryptedData password combined key cause B K D N.
    unfold decrypt, decrypt_body. rewrite B. cbn [bind]. rewrite K.
    cbn [bind]. rewrite D. cbn [bind try_catch]. rewrite N. reflexivity.
Qed.

End Failures.

(** C2 as stated fails: an envelope that is not base64 makes [decrypt] fail
    with another error than a wrong password or an envelope too short to
    hold a nonce and a tag do. *)
Lemma decrypt_failures_differ :
  fst (encrypt Sample.text_platform 0 "{}"%string "correct horse"%string)
  = Ok sealed_sample
  /\ decrypt Sample.text_platform sealed_sample "battery staple"
     = Throw DecryptionFailed
  /\ decrypt Sample.text_platform "AAAA" "correct horse" = Throw DecryptionFailed
  /\ decrypt Sample.text_platform "!" "correct horse" = Throw not_base64_report
  /\ not_base64_report <> DecryptionFailed.
Proof.
  repeat split; try (vm_compute; reflexivity). discriminate.
Qed.

Lemma decrypt_failure_report_witness :
  is_ok (Base64.atob "!") = false
  /\ decrypt Sample.text_platform "!" "correct horse" = Throw not_base64_report
  /\ decrypt Sample.text_platform "AAAA" "correct horse" = Throw DecryptionFailed.
Proof.
  destruct (@decrypt_failure_report string Sample.text_platform)
    as (_ & NotB64 & Auth).
  split; [reflexivity|]. split.
  - apply NotB64. reflexivity.
  - apply (Auth "AAAA"%string "correct horse"%string
                [Byte.x00; Byte.x00; Byte.x00]
                (Sample.bytes_of "correct horse" ++ [Byte.x00; Byte.x00; Byte.x00])
                Sample.OperationError); reflexivity.
Defined.

End FailureFacts.

(** ** Fetching from the store *)
Module StoreFacts.

Import GitHubModule StoreSpec.

Lemma throw_api_error_fails (A : Type) (H : Http) (response : Response) :
  exists e, @throw_api_error A H response = Throw e.
Proof.
  unfold throw_api_error, api_error.
  destruct (json response) as [error|e]; cbn [bind]; [|now exists e].
  destruct (get_property error "message") as [m|e]; cbn [bind]; eauto.
Qed.

(** C5: a 404 answer makes [fetchEncryptedData] return absent content and
    no version, as a normal result; a request that cannot be made, and any
    other answer that is not [ok], make it throw; and absent content is
    returned for a 404 only, so "not found" is never confused with a
    failure. *)
Theorem fetch_not_found_is_not_failure (H : Http) (pat : string) :
  (forall response,
      fetch H (get_request pat) = Ok response -> status response = 404%Z ->
      fetchEncryptedData H pat = Ok (mkFetched None VNull))
  /\ (forall e,
        fetch H (get_request pat) = Throw e ->
        fetchEncryptedData H pat = Throw e)
  /\ (forall response,
        fetch H (get_request pat) = Ok response ->
        status response <> 404%Z -> ok response = false ->
        exists e, fetchEncryptedData H pat = Throw e)
  /\ (forall fetched,
        fetchEncryptedData H pat = Ok fetched ->
        (content fetched = None <->
         exists response,
           fetch H (get_request pat) = Ok response
           /\ status response = 404%Z)).
Proof.
  unfold fetchEncryptedData, try_catch. fold (get_request pat).
  split; [|split; [|split]].
  - intros response F S. rewrite F. cbn [bind].
    now rewrite (proj2 (Z.eqb_eq _ _) S).
  - intros e F. now rewrite F.
  - intros response F S NotOk. rewrite F. cbn [bind].
    rewrite (proj2 (Z.eqb_neq _ _) S), NotOk. cbn [negb].
    destruct (@throw_api_error_fails FetchedData H response) as (e & E).
    rewrite E. now exists e.
  - intros fetched R. split.
    + destruct (fetch H (get_request pat)) as [response|e]; cbn [bind] in R;
        [|discriminate].
      destruct (Z.eqb_spec (status response) 404) as [S|S]; [now eauto|].
      intro C. exfalso.
      destruct (negb (ok response)).
      * destruct (@throw_api_error_fails FetchedData H response) as (e & E).
        rewrite E in R. discriminate.
      * destruct (json response) as [d|]; cbn [bind] in R; [|discriminate].
        destruct (get_property d "content") as [c|]; cbn [bind] in R;
          [|discriminate].
        destruct (value_remove_newlines c) as [stripped|]; cbn [bind] in R;
          [|discriminate].
        destruct (Base64.atob stripped) as [decoded|]; cbn [bind] in R;
          [|discriminate].
        destruct (get_property d "sha") as [sha|]; cbn [bind] in R;
          [|discriminate].
        injection R as <-. discriminate C.
    + intros (response & F & S). rewrite F in R. cbn [bind] in R.
      rewrite (proj2 (Z.eqb_eq _ _) S) in R. injection R as <-. reflexivity.
Qed.

Lemma fetch_not_found_is_not_failure_witness :
  fetchEncryptedData (Sample.answering not_found) "token"
  = Ok (mkFetched None VNull)
  /\ fetchEncryptedData Sample.offline "token"
     = Throw (TypeError "Failed to fetch")
  /\ exists e, fetchEncryptedData (Sample.answering unauthorized) "token"
               = Throw e.
Proof.
  split; [|split].
  - apply (proj1 (fetch_not_found_is_not_failure
                    (Sample.answering not_found) "token") not_found);
      reflexivity.
  - apply (proj1 (proj2 (fetch_not_found_is_not_failure
                           Sample.offline "token"))). reflexivity.
  - apply (proj1 (proj2 (proj2 (fetch_not_found_is_not_failure
                           (Sample.answering unauthorized) "token")))
             unauthorized); [reflexivity | discriminate | reflexivity].
Defined.

End StoreFacts.

(** ** Views over a range of dates *)
Module RangeFacts.

Import WheelChart BalanceSpec RangeSpec.

(** [a <= b] on time values, [b] being a valid date. *)
Lemma date_le_spec (a b : option Z) :
  date_le a b = true <-> exists x y, a = Some x /\ b = Some y /\ (x <= y)%Z.
Proof.
  unfold date_le, date_ge. destruct a as [x|], b as [y|]; split;
    try discriminate; try (intros (x' & y' & A & B & _); discriminate).
  - intro L. exists x, y. repeat split. now apply Z.leb_le.
  - intros (x' & y' & [= <-] & [= <-] & L). now apply Z.leb_le.
Qed.

Lemma filter_all (A : Type) (l : list A) : filter (fun _ => true) l = l.
Proof. induction l as [|x l IH]; simpl; [reflexivity | now rewrite IH]. Qed.

Lemma in_range_within (env : DateEnv) (start stop : option (option Z))
                      (entry : Entry) :
  in_range env start stop entry = true <-> within env start stop entry.
Proof.
  unfold in_range, within. cbv zeta. rewrite andb_true_iff. split.
  - intros [S E]. split.
    + intros s ->. now apply date_le_spec.
    + intros e ->. now apply date_le_spec.
  - intros [S E]. split.
    + destruct start as [s|]; [|reflexivity].
      apply date_le_spec. now apply S.
    + destruct stop as [e|]; [|reflexivity].
      apply date_le_spec. now apply E.
Qed.

(** C8: [filterByDateRange] returns, in their order, exactly the entries
    dated at or after the start bound when one is given and at or before the
    end bound when one is given, both bounds included; without bounds it
    returns the list as it is. *)
Theorem filter_by_date_range (env : DateEnv) (entries : list Entry)
                             (start stop : option (option Z)) :
  filterByDateRange env entries start stop
  = filter (in_range env start stop) entries
  /\ (forall entry,
        In entry (filterByDateRange env entries start stop)
        <-> In entry entries /\ within env start stop entry)
  /\ filterByDateRange env entries None None = entries.
Proof.
  assert (F : filterByDateRange env entries start stop
              = filter (in_range env start stop) entries).
  { unfold filterByDateRange, in_range.
    destruct start as [s|], stop as [e|]; try reflexivity.
    cbn [andb]. symmetry. apply filter_all. }
  split; [exact F|]. split; [|reflexivity].
  intro entry. rewrite F, filter_In, in_range_within. reflexivity.
Qed.

Lemma fold_left_ratings (key : Key) (l : list Entry) (acc : float) :
  fold_left (fun total entry => (total + rating (ratings entry) key)%float) l acc
  = fold_left (fun x y => (x + y)%float)
              (map (fun entry => rating (ratings entry) key) l) acc.
Proof.
  revert acc. induction l as [|e l IH]; intro acc; simpl; [reflexivity|].
  apply IH.
Qed.

Lemma average_of_rounded_mean (kept : list Entry) (key : Key) :
  average_of kept key
  = round_to_tenth (mean (map (fun entry => rating (ratings entry) key) kept)).
Proof.
  unfold average_of, round_to_tenth, mean, sum, length_num. cbv zeta.
  now rewrite fold_left_ratings, length_map.
Qed.

(** C7, as the code has it: [calculateAverages] keeps all entries without a
    window and, with a window of [d] days, exactly those dated at or after
    the cut-off; it returns [null] when none is kept; otherwise it returns
    for each key the mean of that key over the kept entries rounded to one
    decimal place. *)
Theorem calculate_averages_rounded (env : DateEnv) (entries : list Entry)
                                   (days : option Z) :
  let kept := filteredEntries env entries days in
  (days = None -> kept = entries)
  /\ (forall d, days = Some d ->
        forall entry, In entry kept <-> In entry entries /\ recent env d entry)
  /\ (kept = [] -> calculateAverages env entries days = None)
  /\ (kept <> [] ->
      exists r,
        calculateAverages env entries days = Some r
        /\ forall key,
             rating r key
             = round_to_tenth
                 (mean (map (fun entry => rating (ratings entry) key) kept))).
Proof.
  intro kept. split; [|split; [|split]].
  - intros ->. reflexivity.
  - intros d -> entry. unfold kept, filteredEntries, recent.
    rewrite filter_In. change (date_ge ?a ?b) with (date_le b a).
    rewrite date_le_spec. reflexivity.
  - intro K. unfold calculateAverages. fold kept. rewrite K.
    now destruct (List.length entries =? 0)%nat.
  - intro K. unfold calculateAverages. fold kept.
    assert (E : (List.length entries =? 0)%nat = false).
    { apply Nat.eqb_neq. intro L. apply K. apply length_zero_iff_nil in L.
      unfold kept, filteredEntries. rewrite L. now destruct days. }
    assert (E' : (List.length kept =? 0)%nat = false).
    { apply Nat.eqb_neq. intro L. now apply K, length_zero_iff_nil. }
    rewrite E, E'. eexists. split; [reflexivity|].
    intro key. rewrite <- average_of_rounded_mean. now destruct key.
Qed.

(** C7 as stated fails: over three entries rating the body 0, 0 and 1 the
    arithmetic mean is a third, and the returned average is 0.3. *)
Lemma averages_are_not_exact_means :
  exists r,
    calculateAverages Sample.clock thirds None = Some r
    /\ body r = (3 / 10)%float
    /\ mean (map (fun entry => body (ratings entry)) thirds) = (1 / 3)%float
    /\ body r <> mean (map (fun entry => body (ratings entry)) thirds).
Proof.
  exists (mkRatings (3 / 10) 0 0 0 0 0 0 0 0).
  assert (M : mean (map (fun entry => body (ratings entry)) thirds)
              = (1 / 3)%float) by (vm_compute; reflexivity).
  split; [vm_compute; reflexivity|]. split; [reflexivity|].
  split; [exact M|]. rewrite M. cbn [body].
  intro E. apply (f_equal (fun x => PrimFloat.ltb x (1 / 3)%float)) in E.
  vm_compute in E. discriminate E.
Qed.

Lemma calculate_averages_rounded_witness :
  calculateAverages Sample.clock [] (Some 7%Z) = None
  /\ exists r,
       calculateAverages Sample.clock thirds None = Some r
       /\ body r = round_to_tenth
                     (mean (map (fun entry => body (ratings entry)) thirds)).
Proof.
  split.
  - apply (proj1 (proj2 (proj2
             (calculate_averages_rounded Sample.clock [] (Some 7%Z))))).
    reflexivity.
  - destruct (proj2 (proj2 (proj2
                (calculate_averages_rounded Sample.clock thirds None))))
      as (r & R & Avg); [discriminate|].
    exists r. split; [exact R|]. exact (Avg Body).
Defined.

End RangeFacts.

(** ** Submitting an entry *)
Module AppFacts.

Import CryptoModule GitHubModule App AppSpec.

Section Handler.

Variable P : Platform (option Document).
Variable H : Http.
Variable env : DateEnv.

Lemma push_entry_loaded (st : State) (doc : Document) (entry : Entry) :
  data st = Some doc -> push_entry st entry = Ok (with_entry st doc entry).
Proof. unfold push_entry, with_entry. now intros ->. Qed.

(** [saveData] never touches the document, and leaves the whole state alone
    when it fails. *)
Lemma saveData_keeps_data (st : State) (g : Random P) (message : string) :
  data (state (saveData P H st g message)) = data st.
Proof.
  unfold saveData.
  destruct (encrypt P g (data st) (string_or_null (password st))) as [enc g'].
  now destruct (bind enc _).
Qed.

Lemma saveData_failure_keeps_state (st : State) (g : Random P)
                                   (message : string) (e : JsError) :
  result (saveData P H st g message) = Throw e ->
  state (saveData P H st g message) = st.
Proof.
  unfold saveData.
  destruct (encrypt P g (data st) (string_or_null (password st))) as [enc g'].
  destruct (bind enc _); [discriminate | reflexivity].
Qed.

Lemma saveData_fails_with_encrypt (st : State) (g : Random P)
                                  (message : string) (e : JsError) :
  fst (encrypt P g (data st) (string_or_null (password st))) = Throw e ->
  result (saveData P H st g message) = Throw e.
Proof.
  unfold saveData.
  destruct (encrypt P g (data st) (string_or_null (password st))) as [enc g'].
  cbn [fst]. now intros ->.
Qed.

Lemma saveData_fails_with_commit (st : State) (g : Random P)
                                 (message encrypted : string) (e : JsError) :
  fst (encrypt P g (data st) (string_or_null (password st))) = Ok encrypted ->
  commitEncryptedData H (string_or_null (pat st)) encrypted (currentSHA st)
                      message = Throw e ->
  result (saveData P H st g message) = Throw e.
Proof.
  unfold saveData.
  destruct (encrypt P g (data st) (string_or_null (password st))) as [enc g'].
  cbn [fst]. intros -> C. cbn [bind]. now rewrite C.
Qed.

(** The handler on a loaded document, in terms of the save it awaits. *)
Lemma handleEntrySubmit_loaded (form : EntryForm) (st : State) (g : Random P)
                               (doc : Document) :
  data st = Some doc ->
  let entry := fst (new_entry P env form g) in
  let saved := saveData P H (with_entry st doc entry)
                        (snd (new_entry P env form g)) save_message in
  result (handleEntrySubmit P H env form st g) = result saved
  /\ state (handleEntrySubmit P H env form st g) = state saved.
Proof.
  intros D entry saved. unfold handleEntrySubmit.
  subst entry saved. destruct (new_entry P env form g) as [entry g1].
  cbn [fst snd]. rewrite (push_entry_loaded st entry D).
  fold save_message.
  destruct (result (saveData P H (with_entry st doc entry) g1 save_message))
    as [[]|e] eqn:R; cbn [result state]; split; congruence.
Qed.

(** C9: the handler pushes the new entry before it saves, and a failed save
    (the encryption or the commit throwing) rolls nothing back: the handler
    fails with the same error, the new entry stays in the entry list and
    [currentSHA] is what it was. *)
Theorem failed_save_keeps_entry (form : EntryForm) (st : State) (g : Random P)
                                (doc : Document) :
  data st = Some doc ->
  let entry := fst (new_entry P env form g) in
  let g1 := snd (new_entry P env form g) in
  let pushed := with_entry st doc entry in
  let saved := saveData P H pushed g1 save_message in
  let out := handleEntrySubmit P H env form st g in
  push_entry st entry = Ok pushed
  /\ (forall e,
        fst (encrypt P g1 (data pushed) (string_or_null (password pushed)))
        = Throw e ->
        result saved = Throw e)
  /\ (forall encrypted e,
        fst (encrypt P g1 (data pushed) (string_or_null (password pushed)))
        = Ok encrypted ->
        commitEncryptedData H (string_or_null (pat pushed)) encrypted
                            (currentSHA pushed) save_message = Throw e ->
        result saved = Throw e)
  /\ (forall e,
        result saved = Throw e ->
        result out = Throw e
        /\ data (state out)
           = Some (mkDocument (entries doc ++ [entry]) (version doc))
        /\ currentSHA (state out) = currentSHA st).
Proof.
  intros D entry g1 pushed saved out.
  split; [now apply push_entry_loaded|].
  split; [intros e; apply saveData_fails_with_encrypt|].
  split; [intros encrypted e; apply saveData_fails_with_commit|].
  intros e Fail.
  pose proof (handleEntrySubmit_loaded form st g D) as L. cbv zeta in L.
  destruct L as [R S].
  pose proof (saveData_failure_keeps_state _ _ _ Fail) as K.
  subst out saved pushed g1 entry. rewrite R, S, K.
  repeat split. exact Fail.
Qed.

(** C3, as the code has it: the handler does not validate.  Whatever the
    nine controls hold, the entry whose ratings are their [parseInt] values
    is appended to the entries of the loaded document, and the handler
    fails only when the save does, with the error of the save. *)
Theorem entry_appended_unvalidated (form : EntryForm) (st : State)
                                   (g : Random P) (doc : Document) :
  data st = Some doc ->
  let entry := fst (new_entry P env form g) in
  let g1 := snd (new_entry P env form g) in
  let out := handleEntrySubmit P H env form st g in
  ratings entry = collect_ratings form
  /\ data (state out) = Some (mkDocument (entries doc ++ [entry]) (version doc))
  /\ (forall e,
        result out = Throw e ->
        result (saveData P H (with_entry st doc entry) g1 save_message)
        = Throw e).
Proof.
  intros D entry g1 out.
  pose proof (handleEntrySubmit_loaded form st g D) as L. cbv zeta in L.
  destruct L as [R S]. split; [|split].
  - unfold entry, new_entry. now destruct (generateUUID P g).
  - subst out g1 entry. rewrite S, saveData_keeps_data. reflexivity.
  - intros e Fail. subst out g1 entry. now rewrite <- R.
Qed.

End Handler.

(** C3 as stated fails: with 11 on the first control the handler succeeds
    and the entry is in the document. *)
Lemma invalid_ratings_are_appended :
  let out := handleEntrySubmit Sample.app_platform (Sample.answering committed)
                               Sample.clock out_of_range loaded 0 in
  valid_ratings (collect_ratings out_of_range) = false
  /\ body (collect_ratings out_of_range) = 11%float
  /\ result out = Ok tt
  /\ option_map (fun d => map ratings (entries d)) (data (state out))
     = Some [collect_ratings out_of_range].
Proof. vm_compute. repeat split. Qed.

Lemma entry_appended_unvalidated_witness :
  let out := handleEntrySubmit Sample.app_platform (Sample.answering committed)
                               Sample.clock out_of_range loaded 0 in
  data loaded = Some createEmptyData
  /\ exists entry,
       ratings entry = collect_ratings out_of_range
       /\ data (state out) = Some (mkDocument [entry] "1.0").
Proof.
  intro out. split; [reflexivity|].
  destruct (@entry_appended_unvalidated Sample.app_platform
              (Sample.answering committed) Sample.clock out_of_range loaded 0
              createEmptyData eq_refl) as (R & D & _).
  eexists. split; [exact R | exact D].
Defined.

Lemma failed_save_keeps_entry_witness :
  let out := handleEntrySubmit Sample.app_platform Sample.offline
                               Sample.clock out_of_range loaded 0 in
  data loaded = Some createEmptyData
  /\ result out = Throw (TypeError "Failed to fetch")
  /\ option_map (fun d => List.length (entries d)) (data (state out)) = Some 1
  /\ currentSHA (state out) = VNull.
Proof.
  intro out. split; [reflexivity|].
  destruct (@failed_save_keeps_entry Sample.app_platform Sample.offline
              Sample.clock out_of_range loaded 0 createEmptyData eq_refl)
    as (_ & _ & _ & Fail).
  destruct (Fail (TypeError "Failed to fetch")) as (R & D & S).
  - vm_compute. reflexivity.
  - split; [exact R|]. split; [|exact S].
    fold out in D. rewrite D. reflexivity.
Defined.

End AppFacts.

(** ** Random bytes, short envelopes *)
Module CryptoMore.

Import CryptoModule EnvelopeSpec MoreSpec.

Section WithPlatform.

Variable Data : Type.
Variable P : Platform Data.

(** Drawing [n + m] bytes is drawing [n] and then [m]. *)
Lemma getRandomValues_split (n m : nat) (g : Random P) :
  getRandomValues P g (n + m)
  = (fst (getRandomValues P g n)
       ++ fst (getRandomValues P (snd (getRandomValues P g n)) m),
     snd (getRandomValues P (snd (getRandomValues P g n)) m)).
Proof.
  revert g. induction n as [|n IH]; intro g; cbn [Nat.add getRandomValues].
  - cbn [fst snd app]. now destruct (getRandomValues P g m).
  - destruct (random_byte P g) as [b g1]. rewrite (IH g1).
    destruct (getRandomValues P g1 n) as [rest g2]. cbn [fst snd].
    destruct (getRandomValues P g2 m) as [rest' g3]. reflexivity.
Qed.

Lemma getRandomValues_28 (g : Random P) :
  getRandomValues P g 28
  = (fst (getRandomValues P g 16)
       ++ fst (getRandomValues P (snd (getRandomValues P g 16)) 12),
     snd (getRandomValues P (snd (getRandomValues P g 16)) 12)).
Proof. exact (getRandomValues_split 16 12 g). Qed.

Lemma getRandomValues_56 (g : Random P) :
  getRandomValues P g 56
  = (fst (getRandomValues P g 28)
       ++ fst (getRandomValues P (snd (getRandomValues P g 28)) 28),
     snd (getRandomValues P (snd (getRandomValues P g 28)) 28)).
Proof. exact (getRandomValues_split 28 28 g). Qed.

(** [encrypt] leaves the generator where 28 bytes leave it, whatever it
    returns. *)
Lemma encrypt_generator (g : Random P) (data : Data) (password : string) :
  snd (encrypt P g data password) = snd (getRandomValues P g 28).
Proof.
  unfold encrypt. rewrite getRandomValues_28.
  destruct (getRandomValues P g 16) as [salt g1]. cbn [fst snd].
  now destruct (getRandomValues P g1 12) as [iv g2].
Qed.

(** The envelope of a successful [encrypt] starts with the next 28 bytes of
    the generator. *)
Lemma envelope_prefix (g : Random P) (data : Data)
                      (password envelope : string) :
  fst (encrypt P g data password) = Ok envelope ->
  exists bytes,
    base64ToArrayBuffer envelope = Ok bytes
    /\ firstn 28 bytes = fst (getRandomValues P g 28).
Proof.
  unfold encrypt. rewrite getRandomValues_28.
  pose proof (EnvelopeFacts.getRandomValues_length P 16 g) as Hs.
  pose proof (EnvelopeFacts.getRandomValues_length P 12
                (snd (getRandomValues P g 16))) as Hi.
  destruct (getRandomValues P g 16) as [salt g1]. cbn [fst snd] in *.
  destruct (getRandomValues P g1 12) as [iv g2]. cbn [fst snd] in *.
  unfold try_catch.
  destruct (encrypt_body P salt iv data password) as [env|] eqn:EB;
    [|discriminate].
  intros [= <-].
  destruct (EnvelopeFacts.encrypt_body_inv _ _ _ _ _ EB)
    as (key & json & ct & _ & _ & _ & ->).
  exists (salt ++ iv ++ ct). split.
  - apply CodecFacts.base64_roundtrip_bytes.
  - rewrite app_assoc. apply EnvelopeFacts.firstn_exact.
    rewrite length_app. lia.
Qed.

(** X1: two calls of [encrypt] in a row never draw the same random bytes:
    the salt and nonce of the first envelope followed by those of the
    second are the next 56 bytes of the generator. *)
Theorem successive_envelopes_draw_on (g : Random P) (d1 d2 : Data)
                                     (p1 p2 e1 e2 : string) :
  fst (encrypt P g d1 p1) = Ok e1 ->
  fst (encrypt P (snd (encrypt P g d1 p1)) d2 p2) = Ok e2 ->
  exists b1 b2,
    base64ToArrayBuffer e1 = Ok b1
    /\ base64ToArrayBuffer e2 = Ok b2
    /\ firstn 28 b1 ++ firstn 28 b2 = fst (getRandomValues P g 56).
Proof.
  intros E1 E2.
  destruct (envelope_prefix _ _ _ E1) as (b1 & B1 & F1).
  destruct (envelope_prefix _ _ _ E2) as (b2 & B2 & F2).
  exists b1, b2. split; [exact B1|]. split; [exact B2|].
  rewrite F1, F2, encrypt_generator, getRandomValues_56. reflexivity.
Qed.

(** X2: [decrypt] has no length check of its own; where key derivation
    works and AES-GCM refuses inputs shorter than its tag, every envelope
    of fewer than 44 bytes fails with the fixed "Decryption failed" error. *)
Theorem short_envelope_fails (encryptedData password : string)
                             (combined : list Byte.byte) :
  derives_keys P -> rejects_short P ->
  password <> ""%string ->
  base64ToArrayBuffer encryptedData = Ok combined ->
  List.length combined < 44 ->
  decrypt P encryptedData password = Throw DecryptionFailed.
Proof.
  intros Keys Short Hpw B Len.
  unfold decrypt, decrypt_body. rewrite B. cbn [bind].
  destruct (Keys password (slice 0 16 combined) Hpw) as (key & K).
  rewrite K. cbn [bind].
  destruct (Short (slice 16 28 combined) key (slice_from 28 combined))
    as (e & D & N).
  { unfold slice_from. rewrite length_skipn. lia. }
  rewrite D. cbn [bind try_catch]. now rewrite N.
Qed.

End WithPlatform.

Lemma sample_rejects_short (Data : Type) (str : Data -> Result string)
                           (parse : string -> Result Data) :
  rejects_short (Sample.platform str parse).
Proof.
  intros iv key sealed Len. exists Sample.OperationError. split; [|reflexivity].
  cbn [Sample.platform subtle_decrypt]. unfold Sample.unseal.
  replace (List.length sealed <? 16)%nat with true
    by (symmetry; now apply Nat.ltb_lt).
  now rewrite orb_true_r.
Qed.

Lemma successive_envelopes_draw_on_witness :
  exists b1 b2,
    base64ToArrayBuffer sealed_sample = Ok b1
    /\ base64ToArrayBuffer
         "HB0eHyAhIiMkJSYnKCkqKywtLi8wMTIzNDU2N1tdYmF0dGVyeSBzdGFwbGUcHQ=="
       = Ok b2
    /\ firstn 28 b1 ++ firstn 28 b2
       = fst (getRandomValues Sample.text_platform 0 56).
Proof.
  apply (@successive_envelopes_draw_on string Sample.text_platform 0
           "{}"%string "[]"%string "correct horse"%string
           "battery staple"%string);
    vm_compute; reflexivity.
Defined.

Lemma short_envelope_fails_witness :
  decrypt Sample.text_platform "AAAA" "correct horse" = Throw DecryptionFailed.
Proof.
  apply (@short_envelope_fails string Sample.text_platform "AAAA"%string
           "correct horse"%string [Byte.x00; Byte.x00; Byte.x00]).
  - apply EnvelopeFacts.sample_derives_keys.
  - apply sample_rejects_short.
  - discriminate.
  - reflexivity.
  - cbn [List.length]. lia.
Defined.

End CryptoMore.

(** ** Reading from and writing to the store *)
Module StoreMore.

Import GitHubModule StoreSpec MoreSpec.

(** [commitEncryptedData] makes one request and handles its answer. *)
Lemma commit_by_request (H : Http) (pat encryptedData : string) (sha : JsValue)
                        (message : string) :
  commitEncryptedData H pat encryptedData sha message
  = commit_answer H (fetch H (put_request pat encryptedData sha message)).
Proof.
  unfold commitEncryptedData, commit_answer, try_catch. cbv zeta.
  fold (put_request pat encryptedData sha message).
  destruct (fetch H (put_request pat encryptedData sha message))
    as [response|e]; cbn [bind]; [|reflexivity].
  destruct (negb (ok response)).
  - now destruct (throw_api_error H response).
  - now destruct (json response).
Qed.

Lemma api_error_of_object (H : Http) (response : Response)
                          (fields : list (string * JsValue)) :
  json response = Ok (VObject fields) ->
  @throw_api_error JsValue H response
  = Throw (Error ("GitHub API error: " ++ shown_message H fields response)).
Proof.
  intro J. unfold throw_api_error, api_error, shown_message.
  rewrite J. reflexivity.
Qed.

(** X4: what the store holds is handed back unchanged: when the answer to
    the read is [ok] and its [content] is the base64 text of [file], broken
    into lines in any way, [fetchEncryptedData] returns exactly [file],
    with the version of the answer. *)
Theorem fetch_returns_the_file (H : Http) (pat file wrapped : string)
                               (response : Response)
                               (fields : list (string * JsValue)) :
  fetch H (get_request pat) = Ok response ->
  ok response = true ->
  json response = Ok (VObject fields) ->
  lookup "content" fields = VString wrapped ->
  remove_newlines wrapped = Base64.btoa file ->
  fetchEncryptedData H pat
  = Ok (mkFetched (Some file) (lookup "sha" fields)).
Proof.
  intros F O J C W. unfold fetchEncryptedData, try_catch.
  fold (get_request pat). rewrite F. cbn [bind].
  assert (S : (status response =? 404)%Z = false).
  { unfold ok in O. apply andb_true_iff in O. destruct O as [_ O].
    apply Z.leb_le in O. apply Z.eqb_neq. lia. }
  rewrite S, O, J. cbn [negb bind get_property]. rewrite C.
  cbn [value_remove_newlines bind]. rewrite W, Base64Facts.atob_btoa.
  reflexivity.
Qed.

(** X5: a commit the store does not accept is reported in one way, whatever
    the status: an [Error] whose message is "GitHub API error: " followed
    by the [message] of the answer, or by the status text when the answer
    has no message; a version conflict is not told apart from any other
    refusal.  With an answer that is not JSON the error of the parser is
    thrown. *)
Theorem commit_refusal_is_generic (H : Http) (pat encryptedData : string)
                                  (sha : JsValue) (message : string)
                                  (response : Response) :
  fetch H (put_request pat encryptedData sha message) = Ok response ->
  ok response = false ->
  (forall fields,
      json response = Ok (VObject fields) ->
      commitEncryptedData H pat encryptedData sha message
      = Throw (Error ("GitHub API error: "
                        ++ shown_message H fields response)))
  /\ (forall e,
        json response = Throw e ->
        commitEncryptedData H pat encryptedData sha message = Throw e)
  /\ exists e, commitEncryptedData H pat encryptedData sha message = Throw e.
Proof.
  intros F O. rewrite commit_by_request, F. unfold commit_answer.
  rewrite O. cbn [negb]. split; [|split].
  - intros fields J. now apply api_error_of_object.
  - intros e J. unfold throw_api_error, api_error. now rewrite J.
  - apply StoreFacts.throw_api_error_fails.
Qed.

Lemma fetch_returns_the_file_witness :
  fetchEncryptedData
    (Sample.answering
       (file_answer ("Zm9v" ++ String "010" "YmFy" ++ String "010" "")
                    (VString "abc")))
    "token"
  = Ok (mkFetched (Some "foobar"%string) (VString "abc")).
Proof.
  apply (@fetch_returns_the_file _ "token"%string "foobar"%string
           ("Zm9v" ++ String "010" "YmFy" ++ String "010" "")%string
           (file_answer ("Zm9v" ++ String "010" "YmFy" ++ String "010" "")
                        (VString "abc"))
           [("content"%string,
             VString ("Zm9v" ++ String "010" "YmFy" ++ String "010" ""));
            ("sha"%string, VString "abc")]);
    reflexivity.
Defined.

Lemma commit_refusal_is_generic_witness :
  commitEncryptedData (Sample.answering conflict) "token" "AAAA"
                      (VString "abc") "Update"
  = Throw (Error "GitHub API error: data/wheel-of-life.json.encrypted does not match").
Proof.
  apply (proj1 (@commit_refusal_is_generic (Sample.answering conflict)
                  "token"%string "AAAA"%string (VString "abc")
                  "Update"%string conflict eq_refl eq_refl)
           [("message"%string,
             VString "data/wheel-of-life.json.encrypted does not match")]).
  reflexivity.
Defined.

End StoreMore.

(** ** Saving *)
Module SaveMore.

Import CryptoModule GitHubModule App MoreSpec.

Section WithPlatform.

Variable P : Platform (option Document).

(** [encrypt] fails in one way only. *)
Lemma encrypt_failure (g : Random P) (d : option Document) (password : string)
                      (e : JsError) :
  fst (encrypt P g d password) = Throw e ->
  exists cause,
    e = Error ("Failed to encrypt data: " ++ err_message cause).
Proof.
  unfold encrypt.
  destruct (getRandomValues P g 16) as [salt g1].
  destruct (getRandomValues P g1 12) as [iv g2]. cbn [fst].
  unfold try_catch.
  destruct (encrypt_body P salt iv d password) as [env|cause];
    [discriminate|].
  intros [= <-]. now exists cause.
Qed.

(** X3: when the encryption fails, [saveData] makes no request: its outcome
    is the same on every network.  The state is left alone, the error is
    the "Failed to encrypt data" error and the page shows it after "Failed
    to save data: ". *)
Theorem failed_encryption_sends_nothing (H1 H2 : Http) (st : State)
                                        (g : Random P) (message : string)
                                        (e : JsError) :
  fst (encrypt P g (data st) (string_or_null (password st))) = Throw e ->
  saveData P H1 st g message = saveData P H2 st g message
  /\ result (saveData P H1 st g message) = Throw e
  /\ state (saveData P H1 st g message) = st
  /\ exists cause,
       ui (saveData P H1 st g message)
       = [ShowLoading "Saving to GitHub..."; HideLoading;
          ShowError ("Failed to save data: Failed to encrypt data: "
                       ++ err_message cause)].
Proof.
  intro E. destruct (encrypt_failure _ _ _ E) as (cause & ->).
  unfold saveData.
  destruct (encrypt P g (data st) (string_or_null (password st)))
    as [enc g']. cbn [fst] in E. subst enc. cbn [bind].
  repeat split. now exists cause.
Qed.

Variable H : Http.

(** X6: a save that succeeds made its commit with the version held before,
    and changes nothing in the state but the version, which becomes the
    [content.sha] of the answer. *)
Theorem successful_save_updates_the_version (st : State) (g : Random P)
                                            (message : string) :
  result (saveData P H st g message) = Ok tt ->
  exists encrypted response content sha,
    fst (encrypt P g (data st) (string_or_null (password st))) = Ok encrypted
    /\ fetch H (put_request (string_or_null (pat st)) encrypted
                            (currentSHA st) message) = Ok response
    /\ ok response = true
    /\ json response = Ok content
    /\ bind (get_property content "content")
            (fun c => get_property c "sha") = Ok sha
    /\ state (saveData P H st g message)
       = mkState (authenticated st) (pat st) (password st) (data st) sha
                 (currentView st).
Proof.
  unfold saveData.
  destruct (encrypt P g (data st) (string_or_null (password st)))
    as [[encrypted|e] g']; cbn [fst bind]; [|discriminate].
  rewrite StoreMore.commit_by_request.
  destruct (fetch H (put_request (string_or_null (pat st)) encrypted
                                 (currentSHA st) message))
    as [response|e] eqn:F; cbn [commit_answer bind]; [|discriminate].
  destruct (ok response) eqn:O; cbn [negb].
  - destruct (json response) as [content|e] eqn:J; cbn [bind];
      [|discriminate].
    destruct (get_property content "content") as [c|e] eqn:C; cbn [bind];
      [|discriminate].
    destruct (get_property c "sha") as [sha|e] eqn:S; [|discriminate].
    intros _. exists encrypted, response, content, sha.
    repeat split; auto. now rewrite C.
  - destruct (@StoreFacts.throw_api_error_fails JsValue H response)
      as (e & E).
    rewrite E. cbn [bind]. discriminate.
Qed.

(** X7: when the store accepts the commit but its answer has no [content]
    object, [saveData] fails with a [TypeError] and the version held is not
    updated. *)
Theorem unreadable_answer_keeps_the_version (st : State) (g : Random P)
                                            (message encrypted : string)
                                            (response : Response)
                                            (fields : list (string * JsValue)) :
  fst (encrypt P g (data st) (string_or_null (password st))) = Ok encrypted ->
  fetch H (put_request (string_or_null (pat st)) encrypted
                       (currentSHA st) message) = Ok response ->
  ok response = true ->
  json response = Ok (VObject fields) ->
  lookup "content" fields = VUndefined ->
  result (saveData P H st g message)
  = Throw (TypeError "Cannot read properties of undefined (reading 'sha')")
  /\ state (saveData P H st g message) = st.
Proof.
  intros E F O J C. unfold saveData.
  destruct (encrypt P g (data st) (string_or_null (password st)))
    as [enc g']. cbn [fst] in E. subst enc. cbn [bind].
  rewrite StoreMore.commit_by_request, F. cbn [commit_answer].
  rewrite O, J. cbn [negb bind get_property]. rewrite C.
  cbn [bind get_property]. split; reflexivity.
Qed.

End WithPlatform.

End SaveMore.

Module SaveWitnesses.

Import CryptoModule GitHubModule App AppSpec MoreSpec.

Lemma failed_encryption_sends_nothing_witness :
  saveData unserializing Sample.offline loaded 0 "Update"
  = saveData unserializing (Sample.answering committed) loaded 0 "Update"
  /\ state (saveData unserializing Sample.offline loaded 0 "Update") = loaded.
Proof.
  destruct (@SaveMore.failed_encryption_sends_nothing unserializing
              Sample.offline (Sample.answering committed) loaded 0
              "Update"%string
              (Error "Failed to encrypt data: Converting circular structure to JSON")
              eq_refl) as (Same & _ & Kept & _).
  split; [exact Same | exact Kept].
Defined.

Lemma successful_save_updates_the_version_witness :
  currentSHA (state (saveData Sample.app_platform (Sample.answering committed)
                              loaded 0 "Update"))
  = VString "3d21ec53a331a6f037a91c368710b99387d012c1".
Proof.
  destruct (@SaveMore.successful_save_updates_the_version Sample.app_platform
              (Sample.answering committed) loaded 0 "Update"%string eq_refl)
    as (encrypted & response & content & sha & _ & F & _ & J & S & St).
  rewrite St. cbn [currentSHA].
  injection F as <-. injection J as <-. now injection S as <-.
Defined.

Lemma unreadable_answer_keeps_the_version_witness :
  result (saveData Sample.app_platform (Sample.answering bare_answer)
                   loaded 0 "Update")
  = Throw (TypeError "Cannot read properties of undefined (reading 'sha')")
  /\ state (saveData Sample.app_platform (Sample.answering bare_answer)
                     loaded 0 "Update") = loaded.
Proof.
  apply (@SaveMore.unreadable_answer_keeps_the_version Sample.app_platform
           (Sample.answering bare_answer) loaded 0 "Update"%string
           "AAECAwQFBgcICQoLDA0ODxAREhMUFRYXGBkaGzEuMGNvcnJlY3QgaG9yc2UAAQI="%string
           bare_answer []); reflexivity.
Defined.

End SaveWitnesses.

(** ** Entering a session *)
Module SessionFacts.

Import CryptoModule GitHubModule LocalStorage PatStore App Views Session.
Import EnvelopeSpec StoreSpec MoreSpec.

Lemma getItem_setItem (q : Limits) (key value : string) (s s' : Storage) :
  setItem q key value s = Ok s' -> getItem key s' = Some value.
Proof.
  unfold setItem. destruct (refuses q key value s); [discriminate|].
  intros [= <-]. cbn [getItem]. now rewrite String.eqb_refl.
Qed.

Lemma getItem_removeItem (key : string) (s : Storage) :
  getItem key (removeItem key s) = None.
Proof.
  unfold removeItem. induction s as [|[k v] s IH]; cbn [filter fst];
    [reflexivity|].
  destruct (String.eqb key k) eqn:E; cbn [negb]; [exact IH|].
  cbn [getItem]. now rewrite E.
Qed.

Lemma getItem_removeItem_other (key other : string) (s : Storage) :
  other <> key -> getItem other (removeItem key s) = getItem other s.
Proof.
  intro N. unfold removeItem. induction s as [|[k v] s IH]; cbn [filter fst];
    [reflexivity|].
  destruct (String.eqb key k) eqn:E; cbn [negb getItem].
  - apply String.eqb_eq in E. subst k.
    now rewrite (proj2 (String.eqb_neq other key) N).
  - now rewrite IH.
Qed.

Lemma getItem_setItem_other (q : Limits) (key other value : string)
                            (s s' : Storage) :
  other <> key -> setItem q key value s = Ok s' ->
  getItem other s' = getItem other s.
Proof.
  intro N. unfold setItem. destruct (refuses q key value s); [discriminate|].
  intros [= <-]. cbn [getItem].
  rewrite (proj2 (String.eqb_neq other key) N).
  now apply getItem_removeItem_other.
Qed.

Lemma long_password_is_valid (password : string) :
  8 <= String.length password ->
  validatePassword (Some password) = (true, "Password is valid"%string).
Proof.
  intro L. unfold validatePassword.
  now rewrite (proj2 (Nat.ltb_ge _ _) L).
Qed.

Lemma long_password_not_empty (password : string) :
  8 <= String.length password -> password <> ""%string.
Proof. intros L ->. cbn in L. lia. Qed.

Lemma fetch_of_404 (H : Http) (pat : string) (response : Response) :
  fetch H (get_request pat) = Ok response -> status response = 404%Z ->
  fetchEncryptedData H pat = Ok (mkFetched None VNull).
Proof.
  intros F S. unfold fetchEncryptedData, try_catch. fold (get_request pat).
  rewrite F. cbn [bind]. now rewrite (proj2 (Z.eqb_eq _ _) S).
Qed.

Section WithPlatform.

Variable P : Platform (option Document).
Variable H : Http.
Variable env : DateEnv.
Variable q : Limits.

(** [decrypt] opens what [encrypt] sealed with the same password. *)
Lemma decrypt_own_envelope (g : Random P) (D : option Document)
                           (password envelope : string) :
  password <> ""%string ->
  derives_keys P -> aead_correct P -> serializable P D ->
  fst (encrypt P g D password) = Ok envelope ->
  decrypt P envelope password = Ok D.
Proof.
  intros Hpw Hkeys Haead (json & J & Back). unfold encrypt.
  pose proof (EnvelopeFacts.getRandomValues_length P 16 g) as Hs.
  pose proof (EnvelopeFacts.getRandomValues_length P 12
                (snd (getRandomValues P g 16))) as Hi.
  destruct (getRandomValues P g 16) as [salt g1]. cbn [fst snd] in *.
  destruct (getRandomValues P g1 12) as [iv g2]. cbn [fst snd] in *.
  unfold try_catch.
  destruct (encrypt_body P salt iv D password) as [env'|] eqn:EB;
    [|discriminate].
  intros [= <-].
  destruct (EnvelopeFacts.encrypt_body_inv _ _ _ _ _ EB)
    as (key & json' & ct & K & J' & C & ->).
  rewrite J in J'. injection J' as <-.
  destruct (Haead iv key (TextEncoder_encode P json) Hi) as (ct' & C' & Open).
  rewrite C in C'. injection C' as <-.
  unfold decrypt.
  rewrite (EnvelopeFacts.decrypt_body_parts P salt iv ct password Hs Hi).
  unfold open_parts. rewrite K. cbn [bind]. rewrite Open. cbn [bind].
  now rewrite Back.
Qed.

(** X8: a password of fewer than eight characters is refused at once: the
    state and the storage are left alone and nothing is fetched; the page
    shows the message of [validatePassword]. *)
Theorem short_password_is_refused (password : string) (remember : option bool)
                                  (st : State) (s : Storage) :
  String.length password < 8 ->
  handlePasswordSubmit P H env q password remember st s
  = mkRun (Ok tt) st s
          [Ui PreventDefault;
           Ui (ShowError "Password must be at least 8 characters long")].
Proof.
  intro L. unfold handlePasswordSubmit, validatePassword.
  now rewrite (proj2 (Nat.ltb_lt _ _) L).
Qed.

(** X9: when the store answers the read with 404, the session opens on an
    empty document with no version, and the dashboard shows no entry. *)
Theorem first_load_starts_empty (password : string) (remember : option bool)
                                (st : State) (s s1 : Storage)
                                (response : Response) :
  8 <= String.length password ->
  remember_write q remember s = Ok s1 ->
  fetch H (get_request (string_or_null (pat st))) = Ok response ->
  status response = 404%Z ->
  handlePasswordSubmit P H env q password remember st s
  = mkRun (Ok tt)
          (open_session (set_password st (Some password))
                        (Some createEmptyData) VNull)
          s1
          (loading
             ++ [Ui HideLoading;
                 Ui (ShowSuccess "Welcome! Let's create your first entry.");
                 ShowMainApp; Rendered (mkDashboard None 0 None Untouched)]).
Proof.
  intros L W F S. unfold handlePasswordSubmit.
  rewrite (long_password_is_valid _ L). cbn [fst snd negb].
  fold (remember_write q remember s). rewrite W.
  cbn [set_password pat]. rewrite (fetch_of_404 _ _ F S). reflexivity.
Qed.

(** X10: whatever makes [decrypt] fail, the page shows the one message
    "Failed to decrypt data. Please check your password.", the password is
    forgotten and the session is not opened. *)
Theorem decrypt_failures_look_alike (password content : string)
                                    (remember : option bool)
                                    (st : State) (s s1 : Storage)
                                    (version : JsValue) (e : JsError) :
  8 <= String.length password ->
  remember_write q remember s = Ok s1 ->
  fetchEncryptedData H (string_or_null (pat st))
  = Ok (mkFetched (Some content) version) ->
  decrypt P content password = Throw e ->
  handlePasswordSubmit P H env q password remember st s
  = mkRun (Ok tt) (set_password st None) s1
          (loading ++ decrypt_failed_message).
Proof.
  intros L W F D. unfold handlePasswordSubmit.
  rewrite (long_password_is_valid _ L). cbn [fst snd negb].
  fold (remember_write q remember s). rewrite W.
  cbn [set_password pat]. rewrite F. cbn [GitHubModule.content]. rewrite D.
  reflexivity.
Qed.

(** X11: the password never reaches the storage: the handler writes nothing,
    or the single item "remember_password" with the value "true". *)
Theorem password_is_never_stored (password : string) (remember : option bool)
                                 (st : State) (s : Storage) :
  let run := handlePasswordSubmit P H env q password remember st s in
  (stored run = s
   \/ stored run
      = (REMEMBER_PASSWORD_KEY, "true"%string)
          :: removeItem REMEMBER_PASSWORD_KEY s)
  /\ forall key, key <> REMEMBER_PASSWORD_KEY ->
                 getItem key (stored run) = getItem key s.
Proof.
  intro run.
  assert (W : exists s1, (s1 = s
                          \/ s1 = (REMEMBER_PASSWORD_KEY, "true"%string)
                                    :: removeItem REMEMBER_PASSWORD_KEY s)
                         /\ stored run = s1).
  { unfold run, handlePasswordSubmit.
    destruct (negb (fst (validatePassword (Some password))));
      [exists s; now split; [left|]|].
    fold (remember_write q remember s).
    destruct (remember_write q remember s) as [s1|e] eqn:W;
      [|exists s; now split; [left|]].
    exists s1. split.
    - unfold remember_write, setItem in W.
      destruct remember as [[|]|]; try (injection W as <-; now left).
      destruct (refuses q REMEMBER_PASSWORD_KEY "true" s); [discriminate|].
      injection W as <-. now right.
    - destruct (fetchEncryptedData H _) as [fetched|e]; [|reflexivity].
      destruct (GitHubModule.content fetched) as [c|].
      + destruct (decrypt P c password) as [d|e]; [|reflexivity].
        destruct (enter env _ d (sha fetched) _) as [[shown st2] events].
        now destruct shown.
      + destruct (enter env _ (Some createEmptyData) VNull _)
          as [[shown st2] events].
        now destruct shown. }
  destruct W as (s1 & Hs1 & ->). split; [exact Hs1|].
  intros key N. destruct Hs1 as [-> | ->]; [reflexivity|].
  cbn [getItem]. rewrite (proj2 (String.eqb_neq _ _) N).
  now apply getItem_removeItem_other.
Qed.

(** X12: what was saved is what is loaded: when the store hands back the
    envelope that [encrypt] made of a document, and the same password is
    entered, the session opens on that document with the version of the
    answer. *)
Theorem saved_document_loads (g : Random P) (doc : Document)
                             (password envelope : string)
                             (remember : option bool)
                             (st : State) (s s1 : Storage)
                             (version : JsValue) :
  derives_keys P -> aead_correct P -> serializable P (Some doc) ->
  8 <= String.length password ->
  fst (encrypt P g (Some doc) password) = Ok envelope ->
  remember_write q remember s = Ok s1 ->
  fetchEncryptedData H (string_or_null (pat st))
  = Ok (mkFetched (Some envelope) version) ->
  let run := handlePasswordSubmit P H env q password remember st s in
  settled run = Ok tt
  /\ after run
     = open_session (set_password st (Some password)) (Some doc) version
  /\ stored run = s1.
Proof.
  intros Keys Aead Ser L E W F run. unfold run, handlePasswordSubmit.
  rewrite (long_password_is_valid _ L). cbn [fst snd negb].
  fold (remember_write q remember s). rewrite W.
  cbn [set_password pat]. rewrite F. cbn [GitHubModule.content sha].
  rewrite (@decrypt_own_envelope g (Some doc) password envelope
             (@long_password_not_empty password L) Keys Aead Ser E).
  unfold enter, showMainApp, renderDashboard. cbn [open_session data].
  destruct (rev (entries doc)); cbn [settled after stored]; repeat split.
Qed.

(** X13: when the read fails, the page shows "Error loading data: " and the
    message of the error; the session is not opened, and the password
    entered stays in the state. *)
Theorem failed_read_keeps_the_password (password : string)
                                       (remember : option bool)
                                       (st : State) (s s1 : Storage)
                                       (e : JsError) :
  8 <= String.length password ->
  remember_write q remember s = Ok s1 ->
  fetchEncryptedData H (string_or_null (pat st)) = Throw e ->
  handlePasswordSubmit P H env q password remember st s
  = mkRun (Ok tt) (set_password st (Some password)) s1
          (loading
             ++ [Ui HideLoading;
                 Ui (ShowError ("Error loading data: " ++ err_message e))]).
Proof.
  intros L W F. unfold handlePasswordSubmit.
  rewrite (long_password_is_valid _ L). cbn [fst snd negb].
  fold (remember_write q remember s). rewrite W.
  cbn [set_password pat]. now rewrite F.
Qed.

(** X14: an envelope that holds the JSON value [null] opens the session
    without a document: [authenticated] is set and the version taken, and
    then rendering the dashboard fails, so that the page reports a failed
    decryption and the password is forgotten. *)
Theorem null_document_opens_and_fails (password content : string)
                                      (remember : option bool)
                                      (st : State) (s s1 : Storage)
                                      (version : JsValue) :
  8 <= String.length password ->
  remember_write q remember s = Ok s1 ->
  fetchEncryptedData H (string_or_null (pat st))
  = Ok (mkFetched (Some content) version) ->
  decrypt P content password = Ok None ->
  handlePasswordSubmit P H env q password remember st s
  = mkRun (Ok tt)
          (mkState true (pat st) None None version (currentView st))
          s1
          (loading
             ++ [Ui HideLoading; Ui (ShowSuccess "Data loaded successfully!");
                 ShowMainApp]
             ++ decrypt_failed_message).
Proof.
  intros L W F D. unfold handlePasswordSubmit.
  rewrite (long_password_is_valid _ L). cbn [fst snd negb].
  fold (remember_write q remember s). rewrite W.
  cbn [set_password pat]. rewrite F. cbn [GitHubModule.content sha].
  rewrite D. reflexivity.
Qed.

End WithPlatform.

(** X15: the token is stored only once the test request succeeded: either
    [handlePATSubmit] leaves state and storage as they were, or the trimmed
    input is not empty, passed [testPAT], and is now both in the state and
    under "github_pat" in the storage. *)
Theorem token_is_stored_once_tested (H : Http) (q : Limits) (patInput : string)
                                    (st : State) (s : Storage) :
  let run := handlePATSubmit H q patInput st s in
  (after run = st /\ stored run = s)
  \/ (trim patInput <> ""%string
      /\ testPAT H (trim patInput) = true
      /\ pat (after run) = Some (trim patInput)
      /\ getStoredPAT (stored run) = Some (trim patInput)).
Proof.
  intro run. unfold run, handlePATSubmit.
  destruct (String.eqb_spec (trim patInput) "") as [E|N]; [now left|].
  destruct (testPAT H (trim patInput)) eqn:T; cbn [negb]; [|now left].
  destruct (storePAT q (trim patInput) s) as [s'|e] eqn:W; [|now left].
  right. repeat split; auto. cbn [stored]. unfold getStoredPAT.
  exact (getItem_setItem _ _ _ _ W).
Qed.

(** X16: a stored token is found again: after [storePAT] of a token that is
    not empty, [init] takes it into the state and asks for the password;
    after [clearPAT] it asks for a token. *)
Theorem init_finds_the_stored_token (q : Limits) (token : string)
                                    (st : State) (s s' : Storage) :
  token <> ""%string ->
  storePAT q token s = Ok s' ->
  init st s'
  = mkRun (Ok tt) (set_pat st (Some token)) s'
          [ShowPasswordPrompt; SetupEventListeners]
  /\ init st (clearPAT s')
     = mkRun (Ok tt) st (clearPAT s') [ShowPATSetup; SetupEventListeners].
Proof.
  intros N W. unfold init, getStoredPAT, clearPAT. split.
  - rewrite (getItem_setItem _ _ _ _ W).
    now rewrite (proj2 (String.eqb_neq _ _) N).
  - now rewrite getItem_removeItem.
Qed.

End SessionFacts.

(** ** The history and the dashboard *)
Module ViewFacts.

Import CryptoModule GitHubModule WheelChart CategoryView App Views.
Import AppSpec MoreSpec.

Lemma history_rows_entries (f : float -> string) (l : list Entry) :
  map row_entry (history_rows f l) = l.
Proof.
  induction l as [|e l IH]; [reflexivity|].
  cbn [history_rows map row_entry]. now rewrite IH.
Qed.

Lemma history_rows_last (f : float -> string) (l : list Entry) (e : Entry) :
  exists front, history_rows f (l ++ [e]) = front ++ [mkRow e None].
Proof.
  induction l as [|x l [front IH]]; [now exists []|].
  cbn [app history_rows]. rewrite IH.
  eexists (_ :: front). reflexivity.
Qed.

(** X17: the history lists the entries the date inputs keep, the newest
    first, and counts them; when they keep none it says so instead. *)
Theorem history_lists_newest_first (env : DateEnv) (days : DayBounds)
                                   (f : float -> string)
                                   (startDateInput endDateInput : option string)
                                   (st : State) (doc : Document) :
  data st = Some doc ->
  let kept :=
    filterByDateRange env (entries doc)
                      (date_bound (day_start days) startDateInput)
                      (date_bound (day_end days) endDateInput) in
  (kept = [] ->
   renderHistory env days f startDateInput endDateInput st
   = Ok (NoEntries "No entries found for the selected date range."))
  /\ (kept <> [] ->
      exists rows,
        renderHistory env days f startDateInput endDateInput st
        = Ok (Listing rows
                ("Showing " ++ count_string (List.length kept) ++ " "
                   ++ (if (List.length kept =? 1)%nat
                       then "entry" else "entries"))%string)
        /\ map row_entry rows = rev kept).
Proof.
  intros D kept. unfold renderHistory. rewrite D. cbv zeta. fold kept.
  rewrite length_rev. split.
  - now intros ->.
  - intro N.
    assert (Z : (List.length kept =? 0)%nat = false)
      by (destruct kept; [congruence | reflexivity]).
    rewrite Z. eexists. split; [reflexivity|]. apply history_rows_entries.
Qed.

(** X18: the oldest entry the history lists comes last and is shown without
    changes, whether or not the filter hid an older one. *)
Theorem oldest_row_shows_no_changes (env : DateEnv) (days : DayBounds)
                                    (f : float -> string)
                                    (startDateInput endDateInput : option string)
                                    (st : State) (rows : list HistoryRow)
                                    (count : string) :
  renderHistory env days f startDateInput endDateInput st
  = Ok (Listing rows count) ->
  exists front oldest later doc,
    rows = front ++ [mkRow oldest None]
    /\ data st = Some doc
    /\ filterByDateRange env (entries doc)
                         (date_bound (day_start days) startDateInput)
                         (date_bound (day_end days) endDateInput)
       = oldest :: later.
Proof.
  unfold renderHistory. destruct (data st) as [doc|]; [|discriminate].
  cbv zeta.
  destruct (filterByDateRange env (entries doc) _ _) as [|oldest later] eqn:K;
    [discriminate|].
  cbn [rev]. rewrite length_app, Nat.add_comm. cbn [List.length Nat.add Nat.eqb].
  intros [= <- _].
  destruct (history_rows_last f (rev later) oldest) as [front F].
  exists front, oldest, later, doc. now rewrite F.
Qed.

Section Handler.

Variable P : Platform (option Document).
Variable H : Http.
Variable env : DateEnv.

(** X19: once an entry is submitted, the dashboard drawn from the state
    shows the ratings of the form and one entry more than before, whether
    the save succeeded or not; the analytics are hidden when this is the
    first entry. *)
Theorem dashboard_after_submission (form : EntryForm) (st : State)
                                   (g : Random P) (doc : Document) :
  data st = Some doc ->
  renderDashboard env (state (handleEntrySubmit P H env form st g))
  = Ok (mkDashboard
          (Some (collect_ratings form))
          (S (List.length (entries doc)))
          (Some (toISOString env (now env)))
          (match entries doc with
           | [] => Hidden
           | _ :: _ =>
               Shown (renderAnalytics env
                        (mkDocument
                           (entries doc ++ [fst (new_entry P env form g)])
                           (version doc)))
           end)).
Proof.
  intro D.
  destruct (AppFacts.handleEntrySubmit_loaded P H env form st g D) as [_ S].
  rewrite S. unfold renderDashboard. rewrite AppFacts.saveData_keeps_data.
  cbn [with_entry data entries]. rewrite rev_app_distr. cbn [rev app].
  rewrite length_app, Nat.add_comm. cbn [List.length Nat.add].
  unfold new_entry. destruct (generateUUID P g) as [uuid g'].
  cbn [fst ratings timestamp].
  now destruct (entries doc).
Qed.

End Handler.

(** X20: [calculateCategoryAverages] gives [null] exactly when the window
    holds no entry; when a window of some days has averages, so has the
    whole history. *)
Theorem category_averages_need_entries (env : DateEnv) (entries : list Entry)
                                       (days : option Z) :
  (calculateCategoryAverages env entries days = None
   <-> filteredEntries env entries days = [])
  /\ (calculateCategoryAverages env entries days <> None ->
      calculateCategoryAverages env entries None <> None).
Proof.
  unfold calculateCategoryAverages, calculateAverages.
  destruct entries as [|e l].
  - cbn [List.length Nat.eqb]. split; [|congruence].
    split; [|reflexivity]. intros _. now destruct days.
  - cbn [List.length Nat.eqb]. cbv zeta. split.
    + destruct (filteredEntries env (e :: l) days); cbn [List.length Nat.eqb];
        split; congruence.
    + intros _. cbn [filteredEntries List.length Nat.eqb]. discriminate.
Qed.

End ViewFacts.

Module SessionWitnesses.

Import CryptoModule GitHubModule LocalStorage PatStore App Views Session.
Import EnvelopeSpec StoreSpec AppSpec MoreSpec.

Lemma short_password_is_refused_witness :
  handlePasswordSubmit Sample.app_platform Sample.offline Sample.clock roomy
                       "short" (Some true) signed_out []
  = mkRun (Ok tt) signed_out []
          [Ui PreventDefault;
           Ui (ShowError "Password must be at least 8 characters long")].
Proof. apply SessionFacts.short_password_is_refused. cbn. lia. Defined.

Lemma first_load_starts_empty_witness :
  handlePasswordSubmit Sample.app_platform (Sample.answering not_found)
                       Sample.clock roomy "correct horse" (Some true)
                       signed_out []
  = mkRun (Ok tt)
          (mkState true (Some "token"%string) (Some "correct horse"%string)
                   (Some createEmptyData) VNull "dashboard")
          [("remember_password", "true")]%string
          (loading
             ++ [Ui HideLoading;
                 Ui (ShowSuccess "Welcome! Let's create your first entry.");
                 ShowMainApp; Rendered (mkDashboard None 0 None Untouched)]).
Proof.
  apply (@SessionFacts.first_load_starts_empty
           Sample.app_platform (Sample.answering not_found) Sample.clock roomy
           "correct horse"%string (Some true) signed_out []
           [("remember_password", "true")]%string not_found).
  - cbn. lia.
  - reflexivity.
  - reflexivity.
  - reflexivity.
Defined.

Lemma decrypt_failures_look_alike_witness :
  handlePasswordSubmit Sample.app_platform
                       (Sample.answering (file_answer "QUFBQQ==" (VString "abc")))
                       Sample.clock roomy "correct horse" None signed_out []
  = mkRun (Ok tt) signed_out [] (loading ++ decrypt_failed_message).
Proof.
  apply (@SessionFacts.decrypt_failures_look_alike
           Sample.app_platform
           (Sample.answering (file_answer "QUFBQQ==" (VString "abc")))
           Sample.clock roomy "correct horse"%string "AAAA"%string None
           signed_out [] [] (VString "abc") DecryptionFailed).
  - cbn. lia.
  - reflexivity.
  - reflexivity.
  - vm_compute. reflexivity.
Defined.

Lemma saved_document_loads_witness :
  let run :=
    handlePasswordSubmit version_platform
      (Sample.answering (file_answer (Base64.btoa sealed_empty) (VString "abc")))
      Sample.clock roomy "correct horse" None signed_out [] in
  settled run = Ok tt
  /\ after run
     = mkState true (Some "token"%string) (Some "correct horse"%string)
               (Some createEmptyData) (VString "abc") "dashboard"
  /\ stored run = [].
Proof.
  apply (@SessionFacts.saved_document_loads
           version_platform
           (Sample.answering
              (file_answer (Base64.btoa sealed_empty) (VString "abc")))
           Sample.clock roomy 0 createEmptyData "correct horse"%string
           sealed_empty None signed_out [] [] (VString "abc")).
  - apply EnvelopeFacts.sample_derives_keys.
  - apply EnvelopeFacts.sample_aead_correct.
  - exists "1.0"%string. split; reflexivity.
  - cbn. lia.
  - vm_compute. reflexivity.
  - reflexivity.
  - vm_compute. reflexivity.
Defined.

Lemma failed_read_keeps_the_password_witness :
  handlePasswordSubmit Sample.app_platform Sample.offline Sample.clock roomy
                       "correct horse" None signed_out []
  = mkRun (Ok tt)
          (mkState false (Some "token"%string) (Some "correct horse"%string)
                   None VNull "dashboard")
          []
          (loading
             ++ [Ui HideLoading;
                 Ui (ShowError "Error loading data: Failed to fetch")]).
Proof.
  apply (@SessionFacts.failed_read_keeps_the_password
           Sample.app_platform Sample.offline Sample.clock roomy
           "correct horse"%string None signed_out [] []
           (TypeError "Failed to fetch")).
  - cbn. lia.
  - reflexivity.
  - reflexivity.
Defined.

Lemma null_document_opens_and_fails_witness :
  handlePasswordSubmit version_platform
    (Sample.answering (file_answer (Base64.btoa sealed_null) (VString "abc")))
    Sample.clock roomy "correct horse" None signed_out []
  = mkRun (Ok tt)
          (mkState true (Some "token"%string) None None (VString "abc")
                   "dashboard")
          []
          (loading
             ++ [Ui HideLoading; Ui (ShowSuccess "Data loaded successfully!");
                 ShowMainApp]
             ++ decrypt_failed_message).
Proof.
  apply (@SessionFacts.null_document_opens_and_fails
           version_platform
           (Sample.answering
              (file_answer (Base64.btoa sealed_null) (VString "abc")))
           Sample.clock roomy "correct horse"%string sealed_null None
           signed_out [] [] (VString "abc")).
  - cbn. lia.
  - reflexivity.
  - vm_compute. reflexivity.
  - vm_compute. reflexivity.
Defined.

Lemma init_finds_the_stored_token_witness :
  init signed_out [("github_pat", "ghp_0123")]%string
  = mkRun (Ok tt)
          (mkState false (Some "ghp_0123"%string) None None VNull "dashboard")
          [("github_pat", "ghp_0123")]%string
          [ShowPasswordPrompt; SetupEventListeners]
  /\ init signed_out (clearPAT [("github_pat", "ghp_0123")]%string)
     = mkRun (Ok tt) signed_out [] [ShowPATSetup; SetupEventListeners].
Proof.
  apply (@SessionFacts.init_finds_the_stored_token
           roomy "ghp_0123"%string signed_out []
           [("github_pat", "ghp_0123")]%string).
  - discriminate.
  - reflexivity.
Defined.

End SessionWitnesses.

(** ** Whole ratings *)
Module ScaleFacts.

Import CryptoModule GitHubModule WheelChart CategoryView App Views.
Import AppSpec MoreSpec.

Ltac scale_cases z :=
  let C := fresh "C" in
  assert (C : (z = 0 \/ z = 1 \/ z = 2 \/ z = 3 \/ z = 4 \/ z = 5 \/ z = 6
               \/ z = 7 \/ z = 8 \/ z = 9 \/ z = 10)%Z) by lia;
  repeat (destruct C as [C | C]); subst z.

Lemma rating_whole (v : Key -> Z) (k : Key) : rating (whole v) k = Z2num (v k).
Proof. now destruct k. Qed.

(** The difference of two whole ratings is computed exactly. *)
Lemma whole_difference (x y : Z) :
  (0 <= x <= 10)%Z -> (0 <= y <= 10)%Z ->
  (Z2num x - Z2num y)%float = Z2num (x - y)
  /\ PrimFloat.ltb 0 (Z2num (x - y)) = (y <? x)%Z
  /\ PrimFloat.ltb (Z2num (x - y)) 0 = (x <? y)%Z.
Proof.
  intros Hx Hy. scale_cases x; scale_cases y; vm_compute; repeat split.
Qed.

(** Rounding to one decimal leaves a whole rating as it is. *)
Lemma whole_rounding (z : Z) :
  (0 <= z <= 10)%Z ->
  (Math_round ((0 + Z2num z) / Z2num 1 * 10) / 10)%float = Z2num z.
Proof. intro Hz. scale_cases z; vm_compute; reflexivity. Qed.

Lemma slider_value_valid (value : string) :
  In value slider_values -> valid_rating (parseInt value) = true.
Proof.
  unfold slider_values. cbn [In]. intro V.
  repeat (destruct V as [<- | V]; [vm_compute; reflexivity|]).
  destruct V.
Qed.

Lemma existsb_ext (A : Type) (f g : A -> bool) (l : list A) :
  (forall x, f x = g x) -> existsb f l = existsb g l.
Proof.
  intro E. induction l as [|x l IH]; [reflexivity|].
  cbn [existsb]. now rewrite E, IH.
Qed.

(** The loop of [calculateChanges] as two selections from the keys. *)
Lemma changes_fold (f : float -> string) (c p : Ratings) (keys : list Key)
                   (acc : Changes) :
  let diff k := (rating c k - rating p k)%float in
  fold_left (note_change f c p) keys acc
  = mkChanges
      (improved acc
         ++ map (fun k => (key_name k ++ " (+" ++ f (diff k) ++ ")")%string)
                (filter (fun k => PrimFloat.ltb 0 (diff k)) keys))
      (declined acc
         ++ map (fun k => (key_name k ++ " (" ++ f (diff k) ++ ")")%string)
                (filter (fun k => negb (PrimFloat.ltb 0 (diff k))
                                  && PrimFloat.ltb (diff k) 0) keys))
      (hasChanges acc
       || existsb (fun k => PrimFloat.ltb 0 (diff k)
                            || PrimFloat.ltb (diff k) 0) keys).
Proof.
  intro diff. revert acc. induction keys as [|k keys IH]; intro acc.
  - destruct acc. cbn. now rewrite !app_nil_r, orb_false_r.
  - cbn [fold_left filter existsb]. rewrite IH. unfold note_change.
    fold (diff k).
    destruct (PrimFloat.ltb 0 (diff k)); [|destruct (PrimFloat.ltb (diff k) 0)];
      cbn [improved declined hasChanges negb andb orb map];
      rewrite <- ?app_assoc; cbn [app];
      now rewrite ?orb_true_r.
Qed.

(** X21: between two sets of whole ratings from 0 to 10, [calculateChanges]
    lists as improved the keys that went up and as declined the keys that
    went down, each with the exact difference and in the order of the keys,
    and reports changes exactly when some rating differs. *)
Theorem changes_between_whole_ratings (f : float -> string) (a b : Key -> Z) :
  on_scale a -> on_scale b ->
  calculateChanges f (whole a) (whole b)
  = mkChanges (map (gain f a b) (filter (fun k => (b k <? a k)%Z) labels))
              (map (loss f a b) (filter (fun k => (a k <? b k)%Z) labels))
              (existsb (fun k => negb (a k =? b k)%Z) labels).
Proof.
  intros A B. unfold calculateChanges.
  pose proof (changes_fold f (whole a) (whole b) labels (mkChanges [] [] false))
    as F.
  cbv zeta in F. rewrite F. clear F.
  cbn [improved declined hasChanges app orb].
  assert (D : forall k,
             (rating (whole a) k - rating (whole b) k)%float
             = Z2num (a k - b k)).
  { intro k. rewrite !rating_whole. now apply whole_difference. }
  assert (U : forall k, PrimFloat.ltb 0 (Z2num (a k - b k)) = (b k <? a k)%Z)
    by (intro k; now apply whole_difference).
  assert (L : forall k, PrimFloat.ltb (Z2num (a k - b k)) 0 = (a k <? b k)%Z)
    by (intro k; now apply whole_difference).
  f_equal.
  - rewrite (filter_ext _ (fun k => (b k <? a k)%Z))
      by (intro k; now rewrite D, U).
    apply map_ext. intro k. unfold gain. now rewrite D.
  - rewrite (filter_ext _ (fun k => (a k <? b k)%Z)).
    + apply map_ext. intro k. unfold loss. now rewrite D.
    + intro k. rewrite D, U, L.
      destruct (Z.ltb_spec (b k) (a k)), (Z.ltb_spec (a k) (b k));
        cbn; try reflexivity; lia.
  - apply existsb_ext. intro k. rewrite D, U, L.
    destruct (Z.ltb_spec (b k) (a k)), (Z.ltb_spec (a k) (b k)),
             (Z.eqb_spec (a k) (b k)); cbn; try reflexivity; lia.
Qed.

(** X22: the average of a single entry with whole ratings from 0 to 10 is
    that entry's ratings: rounding to one decimal changes nothing. *)
Theorem single_entry_is_its_own_average (env : DateEnv) (entry : Entry)
                                        (v : Key -> Z) :
  on_scale v -> ratings entry = whole v ->
  calculateAverages env [entry] None = Some (ratings entry).
Proof.
  intros V R. unfold calculateAverages. cbn [List.length Nat.eqb].
  cbv zeta. cbn [filteredEntries List.length Nat.eqb].
  assert (K : forall k, average_of [entry] k = Z2num (v k)).
  { intro k. unfold average_of, length_num. cbn [fold_left List.length].
    rewrite R, rating_whole. apply whole_rounding, V. }
  rewrite !K, R. reflexivity.
Qed.

(** X23: the values a slider from 0 to 10 can take are read as valid
    ratings: an entry made from the sliders holds whole numbers from 0 to
    10. *)
Theorem slider_entries_are_valid (form : EntryForm) :
  from_sliders form -> valid_ratings (collect_ratings form) = true.
Proof.
  unfold from_sliders. rewrite Forall_forall. intro F.
  unfold valid_ratings.
  change (Object_values (collect_ratings form))
    with (map parseInt (slider_fields form)).
  apply forallb_forall. intros x I. apply in_map_iff in I.
  destruct I as (value & <- & I). apply slider_value_valid, F, I.
Qed.

Lemma changes_between_whole_ratings_witness :
  calculateChanges as_sign (whole shifted) (whole fives)
  = mkChanges ["body (++)"%string] ["mind (-)"%string] true.
Proof.
  apply (changes_between_whole_ratings as_sign (a:=shifted) (b:=fives)).
  - intro k. destruct k; unfold shifted; lia.
  - intro k. unfold fives. lia.
Defined.

Lemma single_entry_is_its_own_average_witness :
  calculateAverages Sample.clock [mkEntry "a" "1" (whole shifted) ""] None
  = Some (whole shifted).
Proof.
  apply (@single_entry_is_its_own_average
           Sample.clock (mkEntry "a" "1" (whole shifted) "") shifted).
  - intro k. destruct k; unfold shifted; lia.
  - reflexivity.
Defined.

Lemma slider_entries_are_valid_witness :
  valid_ratings
    (collect_ratings (mkForm "0" "10" "5" "5" "5" "5" "5" "5" "7" "fine"))
  = true.
Proof.
  apply slider_entries_are_valid.
  unfold from_sliders, slider_fields, slider_values.
  repeat (apply Forall_cons;
          [cbn [In]; repeat (first [left; reflexivity | right])|]).
  apply Forall_nil.
Defined.

End ScaleFacts.

(** ** Date ranges, identifiers and the stored token *)
Module MoreFacts.

Import CryptoModule GitHubModule WheelChart LocalStorage PatStore App Views.
Import AppSpec MoreSpec.

Lemma filter_twice (A : Type) (f g : A -> bool) (l : list A) :
  filter g (filter f l) = filter (fun x => f x && g x) l.
Proof.
  induction l as [|x l IH]; [reflexivity|].
  cbn [filter]. destruct (f x); cbn [filter andb]; now rewrite IH.
Qed.

Lemma filter_none (A : Type) (f : A -> bool) (l : list A) :
  (forall x, f x = false) -> filter f l = [].
Proof.
  intro N. induction l as [|x l IH]; [reflexivity|].
  cbn [filter]. now rewrite N.
Qed.

Lemma date_ge_invalid (a : option Z) : date_ge a None = false.
Proof. now destruct a. Qed.

(** X24: the two bounds of [filterByDateRange] act one after the other:
    filtering by the start and then by the end is filtering by both, and
    filtering again by the same bounds changes nothing. *)
Theorem date_bounds_compose (env : DateEnv) (entries : list Entry)
                            (startDate endDate : option (option Z)) :
  filterByDateRange env (filterByDateRange env entries startDate None)
                    None endDate
  = filterByDateRange env entries startDate endDate
  /\ filterByDateRange env (filterByDateRange env entries startDate endDate)
                       startDate endDate
     = filterByDateRange env entries startDate endDate.
Proof.
  unfold filterByDateRange. split.
  - destruct startDate as [s|], endDate as [e|]; try reflexivity.
    rewrite filter_twice. apply filter_ext. intro x. cbv zeta.
    now rewrite andb_true_r.
  - destruct startDate as [s|], endDate as [e|]; try reflexivity;
      rewrite filter_twice; apply filter_ext; intro x; cbv zeta;
      now rewrite andb_diag.
Qed.

(** X25: a bound that is an invalid date hides every entry, and an entry
    whose timestamp is no date is hidden as soon as one bound is given. *)
Theorem unreadable_dates_hide_entries (env : DateEnv) (entries : list Entry)
                                      (startDate endDate : option (option Z)) :
  filterByDateRange env entries (Some None) endDate = []
  /\ filterByDateRange env entries startDate (Some None) = []
  /\ forall entry,
       In entry (filterByDateRange env entries startDate endDate) ->
       (startDate = None /\ endDate = None)
       \/ Date_parse env (timestamp entry) <> None.
Proof.
  unfold filterByDateRange. split; [|split].
  - apply filter_none. intro x. cbv zeta. now rewrite date_ge_invalid.
  - destruct startDate; apply filter_none; intro x; cbv zeta;
      unfold date_le; cbn [date_ge]; now rewrite ?andb_false_r.
  - intros entry I.
    destruct startDate as [s|], endDate as [e|]; [right|right|right|now left];
      apply filter_In in I; destruct I as [_ I]; cbv zeta in I;
      intro N; rewrite N in I; unfold date_le in I; cbn [date_ge] in I;
      rewrite ?andb_false_r in I; try discriminate;
      destruct e; discriminate.
Qed.

Section Identifiers.

Variable P : Platform (option Document).

Lemma hex_digit_is_hex (r : N) : (r < 16)%N -> is_hex (hex_digit r) = true.
Proof.
  intro L.
  assert (C : (r = 0 \/ r = 1 \/ r = 2 \/ r = 3 \/ r = 4 \/ r = 5 \/ r = 6
               \/ r = 7 \/ r = 8 \/ r = 9 \/ r = 10 \/ r = 11 \/ r = 12
               \/ r = 13 \/ r = 14 \/ r = 15)%N) by lia.
  repeat (destruct C as [C | C]); subst r; reflexivity.
Qed.

Lemma variant_digit (r : N) :
  existsb (Ascii.eqb (hex_digit (N.lor (N.land r 3) 8)))
          ["8"; "9"; "a"; "b"]%char = true.
Proof.
  change 3%N with (N.ones 2). rewrite N.land_ones.
  pose proof (N.mod_upper_bound r (2 ^ 2)%N) as L.
  set (m := (r mod 2 ^ 2)%N) in *.
  assert (C : (m = 0 \/ m = 1 \/ m = 2 \/ m = 3)%N)
    by (cbn in L; specialize (L ltac:(discriminate)); lia).
  clearbody m.
  repeat (destruct C as [C | C]); subst m; reflexivity.
Qed.

Lemma uuid_char_fits (c : ascii) (g : Random P) :
  nibbles P -> fits c (fst (uuid_char P c g)) = true.
Proof.
  intro Nib. unfold uuid_char, fits. specialize (Nib g).
  destruct (Ascii.eqb c "x") eqn:X; cbn [orb].
  - destruct (Math_random16 P g) as [r g']. cbn [fst] in *.
    now apply hex_digit_is_hex.
  - destruct (Ascii.eqb c "y") eqn:Y.
    + destruct (Math_random16 P g) as [r g']. cbn [fst].
      apply variant_digit.
    + cbn [fst]. apply Ascii.eqb_refl.
Qed.

Lemma uuid_fold (template done : list ascii) (g : Random P) :
  nibbles P ->
  exists out,
    fst (fold_left (fun (acc : list ascii * Random P) c =>
                      let (done, g0) := acc in
                      let (c', g1) := uuid_char P c g0 in
                      (done ++ [c'], g1))
                   template (done, g))
    = done ++ out
    /\ fits_all template out = true.
Proof.
  intro Nib. revert done g.
  induction template as [|c template IH]; intros done g.
  - exists []. cbn. now rewrite app_nil_r.
  - cbn [fold_left]. pose proof (uuid_char_fits c g Nib) as F.
    destruct (uuid_char P c g) as [c' g1]. cbn [fst] in F.
    destruct (IH (done ++ [c']) g1) as (out & E & A).
    exists (c' :: out). rewrite E, <- app_assoc. split; [reflexivity|].
    cbn [fits_all]. now rewrite F, A.
Qed.

(** X26: every identifier [generateUUID] makes has the form of a version-4
    UUID: 36 characters with the hyphens and the 4 of the template, one of
    8, 9, a and b at the place of the [y] and hexadecimal digits in lower
    case elsewhere. *)
Theorem generated_ids_are_version_4 (g : Random P) :
  nibbles P -> uuid_v4 (fst (generateUUID P g)) = true.
Proof.
  intro Nib. unfold generateUUID, uuid_v4.
  destruct (uuid_fold (chars "xxxxxxxx-xxxx-4xxx-yxxx-xxxxxxxxxxxx") [] g Nib)
    as (out & E & A).
  destruct (fold_left _ _ _) as [l g']. cbn [fst] in *.
  unfold text, chars in *. rewrite list_ascii_of_string_of_list_ascii.
  subst l. exact A.
Qed.

End Identifiers.

(** X27: the token written by [storePAT] is the one [getStoredPAT] reads,
    [clearPAT] removes it, and neither touches another item of the
    storage. *)
Theorem stored_token_round_trip (q : Limits) (token : string)
                                (s s' : Storage) :
  storePAT q token s = Ok s' ->
  getStoredPAT s' = Some token
  /\ getStoredPAT (clearPAT s') = None
  /\ forall key, key <> PAT_STORAGE_KEY ->
                 getItem key s' = getItem key s
                 /\ getItem key (clearPAT s') = getItem key s.
Proof.
  intro W. unfold getStoredPAT, clearPAT, storePAT in *. split; [|split].
  - exact (SessionFacts.getItem_setItem _ _ _ _ W).
  - apply SessionFacts.getItem_removeItem.
  - intros key N.
    assert (O : getItem key s' = getItem key s)
      by (eapply SessionFacts.getItem_setItem_other; eauto).
    split; [exact O|].
    now rewrite SessionFacts.getItem_removeItem_other.
Qed.

Lemma generated_ids_are_version_4_witness :
  uuid_v4 (fst (generateUUID Sample.app_platform 7)) = true.
Proof.
  apply generated_ids_are_version_4.
  intro g. cbn. apply N.mod_lt. discriminate.
Defined.

Lemma stored_token_round_trip_witness :
  getStoredPAT [("github_pat", "ghp_0123"); ("remember_password", "true")]%string
  = Some "ghp_0123"%string
  /\ getStoredPAT
       (clearPAT [("github_pat", "ghp_0123");
                  ("remember_password", "true")]%string)
     = None
  /\ forall key, key <> PAT_STORAGE_KEY ->
       getItem key [("github_pat", "ghp_0123");
                    ("remember_password", "true")]%string
       = getItem key [("remember_password", "true")]%string
       /\ getItem key
            (clearPAT [("github_pat", "ghp_0123");
                       ("remember_password", "true")]%string)
          = getItem key [("remember_password", "true")]%string.
Proof.
  apply (@stored_token_round_trip
           roomy "ghp_0123"%string [("remember_password", "true")]%string).
  reflexivity.
Defined.

End MoreFacts.

Module ViewWitnesses.

Import CryptoModule GitHubModule WheelChart CategoryView App Views.
Import AppSpec MoreSpec.

Lemma history_lists_newest_first_witness :
  exists rows,
    renderHistory by_length plain_days as_sign (Some ""%string) None
                  two_entries
    = Ok (Listing rows "Showing 2 entries")
    /\ map row_entry rows
       = [mkEntry "b" "22" (whole shifted) "later";
          mkEntry "a" "1" (whole fives) ""].
Proof.
  refine (proj2 (@ViewFacts.history_lists_newest_first
                   by_length plain_days as_sign (Some ""%string) None
                   two_entries _ eq_refl) _).
  discriminate.
Defined.

Lemma oldest_row_shows_no_changes_witness :
  exists front oldest later doc,
    [mkRow (mkEntry "b" "22" (whole shifted) "later") None] = front ++ [mkRow oldest None]
    /\ data two_entries = Some doc
    /\ filterByDateRange by_length (entries doc)
         (date_bound (day_start plain_days) (Some "xx"%string))
         (date_bound (day_end plain_days) None)
       = oldest :: later.
Proof.
  apply (@ViewFacts.oldest_row_shows_no_changes
           by_length plain_days as_sign (Some "xx"%string) None two_entries
           [mkRow (mkEntry "b" "22" (whole shifted) "later") None]
           "Showing 1 entry"%string).
  reflexivity.
Defined.

Lemma dashboard_after_submission_witness :
  renderDashboard Sample.clock
    (state (handleEntrySubmit Sample.app_platform Sample.offline Sample.clock
                              out_of_range loaded 0))
  = Ok (mkDashboard (Some (collect_ratings out_of_range)) 1
                    (Some "1970-01-01T00:00:00.000Z"%string) Hidden).
Proof.
  apply (@ViewFacts.dashboard_after_submission
           Sample.app_platform Sample.offline Sample.clock out_of_range loaded
           0 createEmptyData).
  reflexivity.
Defined.

End ViewWitnesses.
